(** * KafkaTrader: order-book reconstruction and replication engine

    A shallow embedding of [src/OrderBook.py] and of the [OrderbookManager]
    of [src/MarketDataService.py], with the properties of the specification
    stated and settled over it.

    Conventions of the embedding.
    - Python dictionaries from price to quantity are [gmap Z Z]; the
      dictionaries keyed by ticker or by channel name are [gmap string _].
      A [gmap] hands out its entries in key order and a Python dictionary
      in insertion order; the two places where the source iterates over a
      level dictionary ([max]/[min] of the keys, the comprehension of
      [get_book]) are shown not to depend on that order
      ([py_pick_any_order], [complement_any_order]).
    - Prices, quantities and sequence numbers are Python [int]s: [Z].
    - A value read with [dict.get] is an [option].
    - A Python exception does not undo the mutations made before it was
      raised, so every stateful operation returns the state it leaves
      behind together with its [outcome].
    - The source raises [ValueError] everywhere; the embedding names each
      raise site with the error kind of the specification:
        "No message type / channel specified"      [MalformedMessage]
        "ticker is required"                        [MalformedMessage]
        "Delta message missing required fields"     [MalformedMessage]
        "Received delta before snapshot"            [UnknownMarket]
        "side must be either 'yes' or 'no'"         [InvalidSide]
        "Quantity cannot be negative"               [NegativeQuantity]
        "Missing sequence number in ... update"     [MissingSequence]
        "Missing sequence number for ... Expected"  [SequenceGap]
      and a failed subscript [d[k]] is [KeyError].
    - The coroutines are run to completion one after the other, as the
      single task that drives the feed runs them; the broker accepts every
      message it is sent and keeps them in arrival order. *)

From stdpp Require Import gmap strings list fin_maps.

Open Scope string_scope.
Open Scope list_scope.
Open Scope Z_scope.

(** ** Errors and outcomes *)

Inductive error : Type :=
| MissingSequence
| SequenceGap
| UnknownMarket
| InvalidSide
| NegativeQuantity
| MalformedMessage
| KeyError.

Inductive result (A : Type) : Type :=
| Ok (a : A)
| Raise (e : error).
Arguments Ok {A} a.
Arguments Raise {A} e.

(** The outcome of a procedure that returns [None]. *)
Inductive outcome : Type :=
| Done
| Raised (e : error).

#[global] Instance error_eq_dec : EqDecision error.
Proof. solve_decision. Defined.

#[global] Instance outcome_eq_dec : EqDecision outcome.
Proof. solve_decision. Defined.

(** ** Data model *)

(** [OrderBook.PriceLevel] *)
Record PriceLevel : Type := mkPriceLevel {
  price : Z;
  quantity : Z
}.

(** The dictionary ['market_ticker' / 'yes' / 'no'] built by
    [_publish_to_kafka].  Its two level entries are the book's own
    dictionary objects, not copies, so the embedding keeps them as
    references ([OwnYes], [OwnNo]); a dictionary handed in by a caller
    carries its own contents ([Literal]). *)
Inductive levels_ref : Type :=
| OwnYes
| OwnNo
| Literal (m : gmap Z Z).

Record record : Type := mkRecord {
  rec_ticker : string;
  rec_yes : levels_ref;
  rec_no : levels_ref
}.

(** What a consumer of the topic reads: the JSON text produced by the
    producer's [value_serializer] at the moment of the send. *)
Record wire : Type := mkWire {
  wire_ticker : string;
  wire_yes : gmap Z Z;
  wire_no : gmap Z Z
}.

(** The broker: the records sent so far, oldest first, each with its topic. *)
Definition broker : Type := list (string * wire).

(** The fields of [OrderBook] instances.  [producer] is [false] for
    [self.producer is None] and [true] once [initialize_producer] has
    created and started it. *)
Record OrderBook : Type := mkOrderBook {
  ticker : string;
  yes_levels : gmap Z Z;
  no_levels : gmap Z Z;
  best_yes : option PriceLevel;
  best_no : option PriceLevel;
  producer : bool;
  should_publish : bool;
  pending_messages : list record
}.

(** The content of a feed message, [message['msg']]: the fields the source
    reads from it.  ['yes'] and ['no'] default to the empty list; a list of
    [[price, quantity]] pairs and the items of a dictionary are both a list
    of pairs. *)
Record payload : Type := mkPayload {
  msg_market_ticker : option string;
  msg_yes : list (Z * Z);
  msg_no : list (Z * Z);
  msg_side : option string;
  msg_price : option Z;
  msg_delta : option Z
}.

(** ** [OrderBook] *)

Definition keys (levels : gmap Z Z) : list Z := (map_to_list levels).*1.

(** Python's [max] and [min] over an iterable: the first element, then each
    further one compared with the best so far.  [None] stands for the
    [ValueError] raised on an empty iterable. *)
Definition py_pick (pick : Z → Z → Z) (ks : list Z) : option Z :=
  match ks with
  | [] => None
  | k :: ks' => Some (foldl pick k ks')
  end.

Definition py_max : list Z → option Z := py_pick Z.max.

Definition py_min : list Z → option Z := py_pick Z.min.

Definition is_empty (levels : gmap Z Z) : bool :=
  bool_decide (levels = ∅).

(** One half of [_update_top_of_book]: [None] on an empty side, else the
    level at the picked price. *)
Definition top_level (pick : list Z → option Z) (levels : gmap Z Z)
  : option PriceLevel :=
  if is_empty levels then None
  else p ← pick (keys levels); size ← levels !! p; Some (mkPriceLevel p size).

Definition _update_top_of_book (b : OrderBook) : OrderBook :=
  mkOrderBook (ticker b) (yes_levels b) (no_levels b)
    (top_level py_max (yes_levels b))
    (top_level py_min (no_levels b))
    (producer b) (should_publish b) (pending_messages b).

(** The dictionary comprehension of [__init__]: pairs are taken in order, a
    pair with a non-positive quantity is skipped, a repeated price
    overwrites. *)
Definition ingest_step (m : gmap Z Z) (pq : Z * Z) : gmap Z Z :=
  if bool_decide (0 < pq.2) then <[pq.1 := pq.2]> m else m.

Definition ingest (orders : list (Z * Z)) : gmap Z Z :=
  foldl ingest_step ∅ orders.

(** [OrderBook.__init__] *)
Definition OrderBook_init (orderbook_dict : payload) (publish_to_kafka : bool)
  : result OrderBook :=
  match msg_market_ticker orderbook_dict with
  | None => Raise MalformedMessage
  | Some t =>
      Ok (_update_top_of_book
            (mkOrderBook t (ingest (msg_yes orderbook_dict))
               (ingest (msg_no orderbook_dict))
               None None false publish_to_kafka []))
  end.

Definition own_record (b : OrderBook) : record :=
  mkRecord (ticker b) OwnYes OwnNo.

Definition deref (b : OrderBook) (r : levels_ref) : gmap Z Z :=
  match r with
  | OwnYes => yes_levels b
  | OwnNo => no_levels b
  | Literal m => m
  end.

(** [json.dumps] of a record, run by [send_and_wait]. *)
Definition serialize (b : OrderBook) (r : record) : wire :=
  mkWire (rec_ticker r) (deref b (rec_yes r)) (deref b (rec_no r)).

Definition topic (b : OrderBook) : string := "orderbook." +:+ ticker b.

Definition set_pending (b : OrderBook) (l : list record) : OrderBook :=
  mkOrderBook (ticker b) (yes_levels b) (no_levels b) (best_yes b) (best_no b)
    (producer b) (should_publish b) l.

Definition set_producer (b : OrderBook) (p : bool) : OrderBook :=
  mkOrderBook (ticker b) (yes_levels b) (no_levels b) (best_yes b) (best_no b)
    p (should_publish b) (pending_messages b).

(** [OrderBook._publish_to_kafka].  A record has three keys, hence is
    truthy: [orderbook_dict or ...] and [orderbook_dict is None] agree. *)
Definition _publish_to_kafka (b : OrderBook) (k : broker)
    (orderbook_dict : option record) : OrderBook * broker :=
  if negb (should_publish b) then (b, k)
  else if negb (producer b) then
    (set_pending b
       (pending_messages b ++ [default (own_record b) orderbook_dict]), k)
  else
    (b, k ++ [(topic b, serialize b (default (own_record b) orderbook_dict))]).

(** [OrderBook.initialize_producer] *)
Definition initialize_producer (b : OrderBook) (k : broker)
  : OrderBook * broker :=
  if should_publish b && negb (producer b) then
    let b1 := set_producer b true in
    let '(b2, k2) :=
      foldl (λ st msg, _publish_to_kafka st.1 st.2 (Some msg))
            (b1, k) (pending_messages b1) in
    (set_pending b2 [], k2)
  else (b, k).

Definition set_yes (b : OrderBook) (m : gmap Z Z) : OrderBook :=
  mkOrderBook (ticker b) m (no_levels b) (best_yes b) (best_no b)
    (producer b) (should_publish b) (pending_messages b).

Definition set_no (b : OrderBook) (m : gmap Z Z) : OrderBook :=
  mkOrderBook (ticker b) (yes_levels b) m (best_yes b) (best_no b)
    (producer b) (should_publish b) (pending_messages b).

(** [OrderBook._update_side] *)
Definition _update_side (b : OrderBook) (side : string) (p size_delta : Z)
  : result OrderBook :=
  if negb (bool_decide (side ∈ ["yes"; "no"])) then Raise InvalidSide
  else
    let levels :=
      if bool_decide (side = "yes") then yes_levels b else no_levels b in
    let current_quantity := default 0 (levels !! p) in
    let new_quantity := current_quantity + size_delta in
    if bool_decide (new_quantity = 0) then
      Ok (_update_top_of_book
            (if bool_decide (side = "yes")
             then set_yes b (delete p (yes_levels b))
             else set_no b (delete p (no_levels b))))
    else if bool_decide (new_quantity < 0) then Raise NegativeQuantity
    else
      Ok (_update_top_of_book
            (if bool_decide (side = "yes")
             then set_yes b (<[p := new_quantity]> (yes_levels b))
             else set_no b (<[p := new_quantity]> (no_levels b)))).

(** Truthiness of [msg.get('side')]: present and not the empty string. *)
Definition truthy (s : option string) : bool :=
  match s with
  | Some s' => negb (bool_decide (s' = ""))
  | None => false
  end.

(** [OrderBook.update] *)
Definition update (b : OrderBook) (k : broker) (msg : payload)
  : OrderBook * broker * outcome :=
  match msg_side msg, msg_price msg, msg_delta msg with
  | Some side, Some p, Some size_delta =>
      if truthy (Some side) then
        match _update_side b side p size_delta with
        | Raise e => (b, k, Raised e)
        | Ok b' =>
            let '(b'', k') := _publish_to_kafka b' k None in (b'', k', Done)
        end
      else (b, k, Raised MalformedMessage)
  | _, _, _ => (b, k, Raised MalformedMessage)
  end.

(** [OrderBook.get_book] *)
Record book_view : Type := mkView {
  bids : gmap Z Z;
  offers : gmap Z Z
}.

Definition complement_step (m : gmap Z Z) (pq : Z * Z) : gmap Z Z :=
  <[100 - pq.1 := pq.2]> m.

(** The comprehension [{100 - int(price): quantity for ... in items()}]. *)
Definition complement (alt_bids : gmap Z Z) : gmap Z Z :=
  foldl complement_step ∅ (map_to_list alt_bids).

Definition get_book (b : OrderBook) (side : string) : book_view :=
  let yes_bids := yes_levels b in
  let no_bids := no_levels b in
  let bids := if bool_decide (side = "yes") then yes_bids else no_bids in
  let alt_bids := if bool_decide (side = "yes") then no_bids else yes_bids in
  mkView bids (complement alt_bids).

(** [OrderBook.get_bbo] *)
Definition get_bbo (b : OrderBook) : option PriceLevel * option PriceLevel :=
  (best_yes b, best_no b).

(** ** [OrderbookManager] *)

(** A message of the feed: [message.get('type')], [message.get('seq')] and
    [message.get('msg', {})]. *)
Record message : Type := mkMessage {
  m_type : option string;
  m_seq : option Z;
  m_msg : option payload
}.

Definition empty_payload : payload := mkPayload None [] [] None None None.

Record OrderbookManager : Type := mkManager {
  orderbooks : gmap string OrderBook;
  sequence_numbers : gmap string Z
}.

(** [OrderbookManager.__init__] *)
Definition OrderbookManager_init : OrderbookManager :=
  mkManager ∅
    (<["trade" := -1]>
       (<["orderbook_snapshot" := -1]> (<["orderbook_delta" := -1]> ∅))).

Definition set_orderbooks (mgr : OrderbookManager)
    (obs : gmap string OrderBook) : OrderbookManager :=
  mkManager obs (sequence_numbers mgr).

Definition set_sequence_numbers (mgr : OrderbookManager)
    (sn : gmap string Z) : OrderbookManager :=
  mkManager (orderbooks mgr) sn.

(** [OrderbookManager._check_sequence] *)
Definition _check_sequence (mgr : OrderbookManager) (channel : string)
    (seq_no : option Z) : OrderbookManager * outcome :=
  match seq_no with
  | None => (mgr, Raised MissingSequence)
  | Some s =>
      match sequence_numbers mgr !! channel with
      | None => (mgr, Raised KeyError)
      | Some last_seq =>
          if negb (bool_decide (last_seq = -1))
             && negb (bool_decide (s = last_seq + 1))
          then (mgr, Raised SequenceGap)
          else
            (set_sequence_numbers mgr
               (<[channel := s]> (sequence_numbers mgr)), Done)
      end
  end.

(** [OrderbookManager._process_orderbook_snapshot] *)
Definition _process_orderbook_snapshot (mgr : OrderbookManager) (k : broker)
    (market_ticker : string) (msg_content : payload)
  : OrderbookManager * broker * outcome :=
  match OrderBook_init msg_content true with
  | Raise e => (mgr, k, Raised e)
  | Ok orderbook =>
      let '(orderbook', k') := initialize_producer orderbook k in
      (set_orderbooks mgr (<[market_ticker := orderbook']> (orderbooks mgr)),
       k', Done)
  end.

(** [OrderbookManager._process_orderbook_delta].  [update] works on the
    book object held in [self.orderbooks]: what it leaves behind is what the
    manager holds afterwards, whether it raised or not. *)
Definition _process_orderbook_delta (mgr : OrderbookManager) (k : broker)
    (market_ticker : string) (msg_content : payload)
  : OrderbookManager * broker * outcome :=
  match orderbooks mgr !! market_ticker with
  | None => (mgr, k, Raised UnknownMarket)
  | Some orderbook =>
      let '(orderbook', k', o) := update orderbook k msg_content in
      (set_orderbooks mgr (<[market_ticker := orderbook']> (orderbooks mgr)),
       k', o)
  end.

(** Sequencing of a payload handler and the check that follows it in the
    same [case] arm: the check runs only if the handler returned. *)
Definition then_check (r : OrderbookManager * broker * outcome)
    (channel : string) (seq_no : option Z)
  : OrderbookManager * broker * outcome :=
  match r with
  | (mgr, k, Done) =>
      let '(mgr', o) := _check_sequence mgr channel seq_no in (mgr', k, o)
  | (mgr, k, Raised e) => (mgr, k, Raised e)
  end.

(** [OrderbookManager.process_message].  The [except] clause logs and
    re-raises, so it does not show in the outcome. *)
Definition process_message (mgr : OrderbookManager) (k : broker)
    (m : message) : OrderbookManager * broker * outcome :=
  if negb (truthy (m_type m)) then (mgr, k, Raised MalformedMessage)
  else
    let channel := default "" (m_type m) in
    let seq_no := m_seq m in
    let msg_content := default empty_payload (m_msg m) in
    match msg_market_ticker msg_content with
    | None =>
        (* [market_ticker is None]: logged and returned from, unless the
           channel is 'subscribed', whose arm only logs *)
        if negb (bool_decide (channel = "subscribed")) then (mgr, k, Done)
        else (mgr, k, Done)
    | Some market_ticker =>
        if bool_decide (channel = "subscribed") then (mgr, k, Done)
        else if bool_decide (channel = "ticker") then (mgr, k, Done)
        else if bool_decide (channel = "trade") then
          then_check (mgr, k, Done) channel seq_no
        else if bool_decide (channel = "orderbook_snapshot") then
          then_check
            (_process_orderbook_snapshot mgr k market_ticker msg_content)
            channel seq_no
        else if bool_decide (channel = "orderbook_delta") then
          then_check
            (_process_orderbook_delta mgr k market_ticker msg_content)
            channel seq_no
        else (mgr, k, Done)
    end.

(** ** Specification predicates *)

(** [best] is the entry of [levels] whose price is extremal for [le], and is
    absent exactly when [levels] is empty. *)
Definition best_is (le : Z → Z → Prop) (levels : gmap Z Z)
    (best : option PriceLevel) : Prop :=
  (best = None ↔ levels = ∅) ∧
  ∀ pl, best = Some pl →
    levels !! price pl = Some (quantity pl) ∧
    ∀ p q, levels !! p = Some q → le p (price pl).

Definition top_of_book_current (b : OrderBook) : Prop :=
  best_is Z.le (yes_levels b) (best_yes b) ∧
  best_is Z.ge (no_levels b) (best_no b).

Definition all_positive (levels : gmap Z Z) : Prop :=
  ∀ p q, levels !! p = Some q → 0 < q.

Definition levels_positive (b : OrderBook) : Prop :=
  all_positive (yes_levels b) ∧ all_positive (no_levels b).

(** The states an [OrderBook] instance goes through: built by the
    constructor, then changed only by its own methods. *)
Inductive reachable : OrderBook → Prop :=
| reach_init d pub b :
    OrderBook_init d pub = Ok b → reachable b
| reach_update b k msg b' k' o :
    reachable b → update b k msg = (b', k', o) → reachable b'
| reach_update_side b side p d b' :
    reachable b → _update_side b side p d = Ok b' → reachable b'
| reach_initialize_producer b k b' k' :
    reachable b → initialize_producer b k = (b', k') → reachable b'
| reach_publish b k r b' k' :
    reachable b → _publish_to_kafka b k r = (b', k') → reachable b'.

(** The levels of the side named by [side], as [_update_side] selects them. *)
Definition side_levels (b : OrderBook) (side : string) : gmap Z Z :=
  if bool_decide (side = "yes") then yes_levels b else no_levels b.

Definition current_quantity (b : OrderBook) (side : string) (p : Z) : Z :=
  default 0 (side_levels b side !! p).

(** ** Auxiliary definitions for the statements *)

Definition same_levels (b b' : OrderBook) : Prop :=
  ticker b' = ticker b ∧
  yes_levels b' = yes_levels b ∧ no_levels b' = no_levels b ∧
  best_yes b' = best_yes b ∧ best_no b' = best_no b ∧
  should_publish b' = should_publish b.

(** The level dictionary after a delta that brings price [p] to the
    quantity [new_quantity ≥ 0]. *)
Definition with_quantity (p new_quantity : Z) (levels : gmap Z Z)
  : gmap Z Z :=
  if bool_decide (new_quantity = 0) then delete p levels
  else <[p := new_quantity]> levels.

Definition set_side (b : OrderBook) (side : string) (m : gmap Z Z)
  : OrderBook :=
  if bool_decide (side = "yes") then set_yes b m else set_no b m.

(** What a caller can do to a book between its construction and the end of
    its life, as far as replication is concerned: apply a delta (which
    publishes the book's state) or publish directly. *)
Inductive op : Type :=
| OpUpdate (msg : payload)
| OpPublish (orderbook_dict : option record).

Definition step (st : OrderBook * broker) (o : op) : OrderBook * broker :=
  match o with
  | OpUpdate msg => (update st.1 st.2 msg).1
  | OpPublish orderbook_dict => _publish_to_kafka st.1 st.2 orderbook_dict
  end.

Definition run (b : OrderBook) (k : broker) (ops : list op)
  : OrderBook * broker :=
  foldl step (b, k) ops.



(** What the broker receives for a record sent from book [b]. *)
Definition sent (b : OrderBook) (r : record) : string * wire :=
  (topic b, serialize b r).

(** The record of a book's present state, as a consumer reads it. *)
Definition state_wire (b : OrderBook) : string * wire :=
  (topic b, mkWire (ticker b) (yes_levels b) (no_levels b)).

(** The payload handler of the two order-book channels. *)
Definition payload_handler (channel : string)
  : OrderbookManager → broker → string → payload
    → OrderbookManager * broker * outcome :=
  if bool_decide (channel = "orderbook_snapshot")
  then _process_orderbook_snapshot
  else _process_orderbook_delta.

(** ** Worked scenarios *)

(** Snapshot [{ticker: "X", yes: [[40, 10]], no: [[55, 20]]}]. *)
Definition snapshot_X : payload :=
  mkPayload (Some "X") [(40, 10)] [(55, 20)] None None None.

Definition delta_payload (t side : string) (p d : Z) : payload :=
  mkPayload (Some t) [] [] (Some side) (Some p) (Some d).

(** The book the manager builds from [snapshot_X]... *)
Definition book_X : OrderBook :=
  mkOrderBook "X" {[ 40 := 10 ]} {[ 55 := 20 ]}
    (Some (mkPriceLevel 40 10)) (Some (mkPriceLevel 55 20)) false true [].

(** ... and the same book after the delta [yes 40 -10], published while no
    producer is attached. *)
Definition book_X_sold : OrderBook :=
  mkOrderBook "X" ∅ {[ 55 := 20 ]}
    None (Some (mkPriceLevel 55 20)) false true [own_record book_X].

(** A book the replication consumer builds: publishing disabled. *)
Definition book_X_reader : OrderBook :=
  mkOrderBook "X" {[ 40 := 10 ]} {[ 55 := 20 ]}
    (Some (mkPriceLevel 40 10)) (Some (mkPriceLevel 55 20)) false false [].

Definition two_deltas : list op :=
  [OpUpdate (delta_payload "X" "yes" 40 5);
   OpUpdate (delta_payload "X" "yes" 40 3)].


Definition feed (channel : string) (seq_no : Z) (msg_content : payload)
  : message :=
  mkMessage (Some channel) (Some seq_no) (Some msg_content).

Definition trade_payload (t : string) : payload :=
  mkPayload (Some t) [] [] (Some "yes") (Some 40) None.

Definition no_ticker (ys ns : list (Z * Z)) (sd : option string)
    (pr dl : option Z) : payload :=
  mkPayload None ys ns sd pr dl.

(** A feed for market X: the snapshot, a first delta numbered 2, and a
    delta numbered 4 where 3 was due. *)
Definition after_snapshot : OrderbookManager * broker * outcome :=
  process_message OrderbookManager_init []
    (feed "orderbook_snapshot" 1 snapshot_X).

Definition after_first_delta : OrderbookManager * broker * outcome :=
  process_message after_snapshot.1.1 after_snapshot.1.2
    (feed "orderbook_delta" 2 (delta_payload "X" "yes" 40 5)).

Definition late_delta : message :=
  feed "orderbook_delta" 4 (delta_payload "X" "yes" 40 3).

(** ** [OrderBook.from_kafka] *)

(** [json.loads] of a message of the topic, as [__init__] then reads it:
    the two level dictionaries arrive as dictionaries, so the constructor
    iterates over their [items()]; the keys, strings in the JSON text, go
    back to integers through [int]. *)
Definition wire_payload (w : wire) : payload :=
  mkPayload (Some (wire_ticker w))
    (map_to_list (wire_yes w)) (map_to_list (wire_no w)) None None None.

(** The messages a consumer subscribed to [orderbook.<ticker>] receives
    out of those the broker got after it attached. *)
Definition consumed (t : string) (k : broker) : list wire :=
  (filter (λ tw, tw.1 = "orderbook." +:+ t) k).*2.

(** The generator body of [from_kafka]: one book per message, built with
    [publish_to_kafka=False]; an exception of the constructor ends the
    generator. *)
Fixpoint yields (msgs : list wire) : list OrderBook * outcome :=
  match msgs with
  | [] => ([], Done)
  | w :: msgs' =>
      match OrderBook_init (wire_payload w) false with
      | Raise e => ([], Raised e)
      | Ok b => let '(bs, o) := yields msgs' in (b :: bs, o)
      end
  end.

Definition from_kafka (t : string) (k : broker) : list OrderBook * outcome :=
  yields (consumed t k).

(** Two books show the same market state. *)
Definition same_market (b b' : OrderBook) : Prop :=
  ticker b' = ticker b ∧
  yes_levels b' = yes_levels b ∧ no_levels b' = no_levels b ∧
  best_yes b' = best_yes b ∧ best_no b' = best_no b.

(** ** States of the manager *)

(** The states of an [OrderbookManager] and of the broker behind it: the
    fresh manager, then whatever [process_message] leaves, whether it
    raised or not. *)
Inductive manager_reachable : OrderbookManager → broker → Prop :=
| manager_fresh k : manager_reachable OrderbookManager_init k
| manager_step mgr k m mgr' k' o :
    manager_reachable mgr k →
    process_message mgr k m = (mgr', k', o) →
    manager_reachable mgr' k'.

(** What holds of every book the manager has registered. *)
Definition registered_ok (t : string) (b : OrderBook) : Prop :=
  ticker b = t ∧ should_publish b = true ∧ producer b = true ∧
  pending_messages b = [] ∧ reachable b.

Definition channels : gset string :=
  {[ "trade"; "orderbook_snapshot"; "orderbook_delta" ]}.

Definition manager_ok (mgr : OrderbookManager) : Prop :=
  (∀ t b, orderbooks mgr !! t = Some b → registered_ok t b) ∧
  dom (sequence_numbers mgr) = channels.

(** The channel and the ticker [process_message] reads off a message. *)
Definition channel_of (m : message) : string := default "" (m_type m).

Definition content_of (m : message) : payload :=
  default empty_payload (m_msg m).

Definition ticker_of (m : message) : option string :=
  msg_market_ticker (content_of m).

(** ** [KalshiWebsocketClient]: the command side *)

(** The ["params"] dictionary of a command: the keys the methods may set. *)
Record params : Type := mkParams {
  p_channels : option (list string);
  p_market_tickers : option (list string);
  p_market_ticker : option string;
  p_sids : option (list Z);
  p_action : option string
}.

(** A command as it goes over the socket: ["id"], ["cmd"], ["params"]. *)
Record command : Type := mkCommand {
  c_id : Z;
  c_cmd : string;
  c_params : params
}.

(** The fields of a [KalshiWebsocketClient].  [ws_websocket] is [None]
    until [connect]; afterwards it is the connection, of which the
    embedding keeps what was sent over it, oldest first. *)
Record KalshiWebsocketClient : Type := mkClient {
  ws_env : string;
  ws_rest_api : string;
  ws_url : string;
  ws_command_id : Z;
  ws_token : option string;
  ws_websocket : option (list command)
}.

(** [self.websocket.send] on a client that never connected is an
    attribute lookup on [None]. *)
Inductive client_outcome : Type :=
| Sent
| NotConnected.

(** [KalshiWebsocketClient.__init__] *)
Definition KalshiWebsocketClient_init (env : string) : KalshiWebsocketClient :=
  if bool_decide (env = "prod") then
    mkClient env "https://trading-api.kalshi.com/trade-api/v2"
      "wss://api.elections.kalshi.com/trade-api/ws/v2" 1 None None
  else
    mkClient env "https://demo-api.kalshi.co/trade-api/v2"
      "wss://demo-api.kalshi.co/trade-api/ws/v2" 1 None None.

(** [KalshiWebsocketClient.connect], given the token a login would return:
    the login happens only if no token is held; the socket is a new one. *)
Definition connect (c : KalshiWebsocketClient) (login_token : string)
  : KalshiWebsocketClient :=
  mkClient (ws_env c) (ws_rest_api c) (ws_url c) (ws_command_id c)
    (if truthy (ws_token c) then ws_token c else Some login_token)
    (Some []).

(** The tail every command method shares: the command takes the current
    [command_id], goes over the socket, and only then is the counter
    incremented. *)
Definition send_command (c : KalshiWebsocketClient) (cmd : string)
    (ps : params) : KalshiWebsocketClient * client_outcome :=
  let command := mkCommand (ws_command_id c) cmd ps in
  match ws_websocket c with
  | None => (c, NotConnected)
  | Some sent_so_far =>
      (mkClient (ws_env c) (ws_rest_api c) (ws_url c) (ws_command_id c + 1)
         (ws_token c) (Some (sent_so_far ++ [command])), Sent)
  end.

(** Truthiness of an optional list: present and not empty. *)
Definition truthy_list (l : option (list string)) : bool :=
  match l with
  | Some (_ :: _) => true
  | _ => false
  end.

Definition channel_params (channel : string) : params :=
  mkParams (Some [channel]) None None None None.

Definition with_market_tickers (ps : params) (l : option (list string))
  : params :=
  mkParams (p_channels ps) l (p_market_ticker ps) (p_sids ps) (p_action ps).

Definition with_market_ticker (ps : params) (t : option string) : params :=
  mkParams (p_channels ps) (p_market_tickers ps) t (p_sids ps) (p_action ps).

Definition subscribe_orderbook (c : KalshiWebsocketClient)
    (market_tickers : list string) :=
  send_command c "subscribe"
    (with_market_tickers (channel_params "orderbook_delta")
       (Some market_tickers)).

Definition subscribe_ticker (c : KalshiWebsocketClient)
    (market_tickers : option (list string)) :=
  send_command c "subscribe"
    (if truthy_list market_tickers
     then with_market_tickers (channel_params "ticker") market_tickers
     else channel_params "ticker").

Definition subscribe_trades (c : KalshiWebsocketClient)
    (market_tickers : option (list string)) :=
  send_command c "subscribe"
    (if truthy_list market_tickers
     then with_market_tickers (channel_params "trade") market_tickers
     else channel_params "trade").

Definition subscribe_fills (c : KalshiWebsocketClient)
    (market_ticker : option string) (market_tickers : option (list string)) :=
  send_command c "subscribe"
    (if truthy market_ticker
     then with_market_ticker (channel_params "fill") market_ticker
     else if truthy_list market_tickers
     then with_market_tickers (channel_params "fill") market_tickers
     else channel_params "fill").

Definition subscribe_market_lifecycle (c : KalshiWebsocketClient) :=
  send_command c "subscribe" (channel_params "market_lifecycle").

Definition unsubscribe (c : KalshiWebsocketClient)
    (subscription_ids : list Z) :=
  send_command c "unsubscribe"
    (mkParams None None None (Some subscription_ids) None).

Definition update_subscription (c : KalshiWebsocketClient)
    (subscription_id : Z) (market_tickers : list string) (action : string) :=
  send_command c "update_subscription"
    (mkParams None (Some market_tickers) None (Some [subscription_id])
       (Some action)).

(** One call of a command method. *)
Inductive client_call : Type :=
| CallSubscribeOrderbook (market_tickers : list string)
| CallSubscribeTicker (market_tickers : option (list string))
| CallSubscribeTrades (market_tickers : option (list string))
| CallSubscribeFills (market_ticker : option string)
    (market_tickers : option (list string))
| CallSubscribeMarketLifecycle
| CallUnsubscribe (subscription_ids : list Z)
| CallUpdateSubscription (subscription_id : Z) (market_tickers : list string)
    (action : string).

Definition do_call (c : KalshiWebsocketClient) (call : client_call)
  : KalshiWebsocketClient * client_outcome :=
  match call with
  | CallSubscribeOrderbook l => subscribe_orderbook c l
  | CallSubscribeTicker l => subscribe_ticker c l
  | CallSubscribeTrades l => subscribe_trades c l
  | CallSubscribeFills t l => subscribe_fills c t l
  | CallSubscribeMarketLifecycle => subscribe_market_lifecycle c
  | CallUnsubscribe l => unsubscribe c l
  | CallUpdateSubscription i l a => update_subscription c i l a
  end.

(** A caller that goes on after a failed call, as one that catches the
    exception would. *)
Definition do_calls (c : KalshiWebsocketClient) (calls : list client_call)
  : KalshiWebsocketClient :=
  foldl (λ c call, (do_call c call).1) c calls.

Definition sent_commands (c : KalshiWebsocketClient) : list command :=
  default [] (ws_websocket c).

(** ** [OrderManagementSystem] *)

(** [OrderManagementSystem.Order]; [ord_id] is the identifier the caller
    gives or the UUID drawn for it. *)
Record Order : Type := mkOrder {
  ord_ticker : string;
  ord_action : string;
  ord_type : string;
  ord_amount : Z;
  ord_side : string;
  ord_yes_price : option Z;
  ord_no_price : option Z;
  ord_id : string
}.

(** The exceptions of the module, by raise site:
      "An order can only have either a yes_price or a no_price"  [BothPrices]
      "Market is not actively trading"                            [NotTrading]
      "Invalid order"                                             [InvalidOrder]
      "Risk checks failed"                                        [RiskChecksFailed]
      "Failed to send order to market"                            [SendFailed]
      "Failed to cancel order in market"                          [CancelFailed]
      "Order ID not found"                                        [OrderNotFound] *)
Inductive oms_error : Type :=
| BothPrices
| NotTrading
| InvalidOrder
| RiskChecksFailed
| SendFailed
| CancelFailed
| OrderNotFound.

Inductive oms_outcome : Type :=
| Accepted
| Rejected (e : oms_error).

(** [Order.__post_init__], run by the constructor. *)
Definition Order_init (ticker action type : string) (amount : Z)
    (side : string) (yes_price no_price : option Z) (id : string)
  : oms_error + Order :=
  if bool_decide (yes_price ≠ None) && bool_decide (no_price ≠ None)
  then inl BothPrices
  else inr (mkOrder ticker action type amount side yes_price no_price id).

(** [self.live_orders] *)
Record OrderManagementSystem : Type := mkOMS {
  live_orders : gmap string Order
}.

Definition OrderManagementSystem_init : OrderManagementSystem := mkOMS ∅.

(** [validate_order]; an [Order] always has its [id] and [amount]. *)
Definition validate_order (order : Order) : bool :=
  bool_decide (0 < ord_amount order).

(** [check_market_conditions] and [check_account_balance] sleep and
    return [True]. *)
Definition check_market_conditions (order : Order) : bool := true.

Definition check_account_balance (order : Order) : bool := true.

(** [run_risk_checks]: [true] for a normal return, [false] for
    "Risk checks failed". *)
Definition run_risk_checks (order : Order) : bool :=
  if check_market_conditions order
  then if check_account_balance order then true else false
  else false.

(** [send_order].  The exchange is outside the repository: what it
    answers is given, [trading_active] for [get_exchange_status] and
    [order_id] for the ['order_id'] entry of the answer to [create_order]
    (asked only if the checks before it passed). *)
Definition send_order (oms : OrderManagementSystem) (trading_active : bool)
    (order_id : option string) (order : Order)
  : OrderManagementSystem * oms_outcome :=
  if negb trading_active then (oms, Rejected NotTrading)
  else if negb (validate_order order) then (oms, Rejected InvalidOrder)
  else if negb (run_risk_checks order) then (oms, Rejected RiskChecksFailed)
  else if truthy order_id then
    (mkOMS (<[ord_id order := order]> (live_orders oms)), Accepted)
  else (oms, Rejected SendFailed).

(** [cancel_order]; [success] is what the exchange answers to
    [cancel_order], asked only for a live order. *)
Definition cancel_order (oms : OrderManagementSystem) (success : bool)
    (order_id : string) : OrderManagementSystem * oms_outcome :=
  match live_orders oms !! order_id with
  | Some _ =>
      if success then (mkOMS (delete order_id (live_orders oms)), Accepted)
      else (oms, Rejected CancelFailed)
  | None => (oms, Rejected OrderNotFound)
  end.

(** The dictionary [new_order_details]: an absent key is [None]; a price
    key can be present with the value [None]. *)
Record order_details : Type := mkDetails {
  det_amount : option Z;
  det_yes_price : option (option Z);
  det_no_price : option (option Z);
  det_action : option string;
  det_type : option string
}.

Definition apply_details (order : Order) (d : order_details) : Order :=
  mkOrder (ord_ticker order)
    (default (ord_action order) (det_action d))
    (default (ord_type order) (det_type d))
    (default (ord_amount order) (det_amount d))
    (ord_side order)
    (default (ord_yes_price order) (det_yes_price d))
    (default (ord_no_price order) (det_no_price d))
    (ord_id order).

(** [update_order]: the order object held in [live_orders] is changed in
    place and sent again. *)
Definition update_order (oms : OrderManagementSystem) (order_id : string)
    (new_order_details : order_details)
  : OrderManagementSystem * oms_outcome :=
  match live_orders oms !! order_id with
  | Some order =>
      (mkOMS (<[order_id := apply_details order new_order_details]>
                (live_orders oms)), Accepted)
  | None => (oms, Rejected OrderNotFound)
  end.

(** [get_live_orders] *)
Definition get_live_orders (oms : OrderManagementSystem) : list Order :=
  (map_to_list (live_orders oms)).*2.

(** The states of an order management system. *)
Inductive oms_reachable : OrderManagementSystem → Prop :=
| oms_fresh : oms_reachable OrderManagementSystem_init
| oms_send oms trading_active order_id order :
    oms_reachable oms →
    oms_reachable (send_order oms trading_active order_id order).1
| oms_cancel oms success order_id :
    oms_reachable oms →
    oms_reachable (cancel_order oms success order_id).1
| oms_update oms order_id d :
    oms_reachable oms →
    oms_reachable (update_order oms order_id d).1.

(** ** [MarketMonitor.monitor_market] *)

(** What a call of the handler does: it returns, it raises
    [asyncio.CancelledError], or it raises another exception. *)
Inductive handler_result : Type :=
| Handled
| Cancelled
| Failed.

(** The loop over the books [from_kafka] yields.  [conditional] is called
    before each book (the argument counts the books handled so far);
    [updates] is incremented before the handler is called.  The result is
    the list of handler calls made, each book with its update number. *)
Fixpoint monitor_loop (conditional : nat → bool)
    (handler : OrderBook → nat → handler_result)
    (updates : nat) (books : list OrderBook) : list (OrderBook * nat) :=
  match books with
  | [] => []
  | orderbook :: books' =>
      if negb (conditional updates) then []
      else
        let updates := S updates in
        match handler orderbook updates with
        | Cancelled => [(orderbook, updates)]
        | Handled | Failed =>
            (orderbook, updates)
              :: monitor_loop conditional handler updates books'
        end
  end.

(** [_active_monitors[ticker] += 1] on a [Counter]: a missing key counts
    as 0. *)
Definition counter_add (active : gmap string Z) (t : string) (n : Z)
  : gmap string Z :=
  <[t := default 0 (active !! t) + n]> active.

(** The [finally] clause: decrement, and drop the key at 0. *)
Definition monitor_release (active : gmap string Z) (t : string)
  : gmap string Z :=
  let active := counter_add active t (-1) in
  if bool_decide (active !! t = Some 0) then delete t active else active.

(** [monitor_market]: the counter of active monitors it leaves and the
    handler calls it made. *)
Definition monitor_market (active : gmap string Z) (t : string)
    (conditional : nat → bool)
    (handler : OrderBook → nat → handler_result) (books : list OrderBook)
  : gmap string Z * list (OrderBook * nat) :=
  let active := counter_add active t 1 in
  let calls := monitor_loop conditional handler 0 books in
  (monitor_release active t, calls).

(** ** Further scenarios *)

Definition three_calls : list client_call :=
  [CallSubscribeTicker (Some ["X"]); CallSubscribeOrderbook ["X"];
   CallUnsubscribe [1]].

Definition order_A : Order :=
  mkOrder "X" "buy" "limit" 10 "no" None (Some 25) "A".

(** ** Best of book *)

Section Extremum.
Variable pick : Z → Z → Z.
Variable le : Z → Z → Prop.
Hypothesis pick_choice : ∀ a b, pick a b = a ∨ pick a b = b.
Hypothesis pick_l : ∀ a b, le a (pick a b).
Hypothesis pick_r : ∀ a b, le b (pick a b).
Hypothesis le_trans : ∀ a b c, le a b → le b c → le a c.

Lemma foldl_pick_init ks : ∀ k, le k (foldl pick k ks).
Proof.
  induction ks as [|a ks IH]; intros k; simpl.
  - destruct (pick_choice k k) as [E|E]; rewrite <- E at 2; apply pick_l.
  - eapply le_trans; [apply pick_l | apply IH].
Qed.

Lemma foldl_pick_bound ks : ∀ k x, x ∈ ks → le x (foldl pick k ks).
Proof.
  induction ks as [|a ks IH]; intros k x Hx; simpl.
  - by apply elem_of_nil in Hx.
  - apply elem_of_cons in Hx as [-> | Hx].
    + eapply le_trans; [apply pick_r | apply foldl_pick_init].
    + by apply IH.
Qed.

Lemma foldl_pick_mem ks : ∀ k, foldl pick k ks ∈ k :: ks.
Proof.
  induction ks as [|a ks IH]; intros k; simpl.
  - apply elem_of_cons. by left.
  - specialize (IH (pick k a)).
    apply elem_of_cons in IH as [E | IH].
    + rewrite E. rewrite !elem_of_cons.
      destruct (pick_choice k a) as [-> | ->]; auto.
    + rewrite !elem_of_cons. auto.
Qed.

Lemma py_pick_spec ks k :
  py_pick pick ks = Some k → k ∈ ks ∧ ∀ x, x ∈ ks → le x k.
Proof.
  destruct ks as [|a ks]; simpl; [done|].
  intros [= <-]. split; [apply foldl_pick_mem|].
  intros x [-> | Hx]%elem_of_cons.
  - apply foldl_pick_init.
  - by apply foldl_pick_bound.
Qed.

(** The pick does not depend on the order in which the dictionary hands
    out its keys. *)
Lemma py_pick_any_order (l1 l2 : list Z) :
  (∀ x y, le x y → le y x → x = y) →
  l1 ≡ₚ l2 → py_pick pick l1 = py_pick pick l2.
Proof.
  intros Hanti Hperm.
  destruct (py_pick pick l1) as [k1|] eqn:H1,
           (py_pick pick l2) as [k2|] eqn:H2.
  - apply py_pick_spec in H1 as [Hin1 Hub1].
    apply py_pick_spec in H2 as [Hin2 Hub2].
    f_equal. apply Hanti.
    + apply Hub2. by rewrite <- Hperm.
    + apply Hub1. by rewrite Hperm.
  - destruct l2; [|done]. apply Permutation_nil_r in Hperm. by subst.
  - destruct l1; [|done]. symmetry in Hperm.
    apply Permutation_nil_r in Hperm. by subst.
  - done.
Qed.

Lemma elem_of_keys (levels : gmap Z Z) p :
  p ∈ keys levels ↔ is_Some (levels !! p).
Proof.
  unfold keys. rewrite list_elem_of_fmap. split.
  - intros [[p' q] [-> Hin]]. apply elem_of_map_to_list in Hin. by exists q.
  - intros [q Hq]. exists (p, q). split; [done|].
    by apply elem_of_map_to_list.
Qed.

Lemma top_level_spec (levels : gmap Z Z) :
  best_is le levels (top_level (py_pick pick) levels).
Proof.
  unfold best_is, top_level, is_empty.
  case_bool_decide as Hempty.
  { split; [done|]. intros pl [=]. }
  destruct (py_pick pick (keys levels)) as [k|] eqn:Hpick; simpl.
  - apply py_pick_spec in Hpick as [Hin Hub].
    apply elem_of_keys in Hin as [q Hq]. rewrite Hq. simpl.
    split; [split; [done | by intros ->] |].
    intros pl [= <-]. simpl. split; [done|].
    intros p' q' Hp'. apply Hub, elem_of_keys. by exists q'.
  - exfalso. apply Hempty.
    unfold py_pick, keys in Hpick.
    destruct (map_to_list levels) as [|[??] ?] eqn:Hl; [|done].
    by apply map_to_list_empty_iff.
Qed.
End Extremum.

Lemma top_level_max levels : best_is Z.le levels (top_level py_max levels).
Proof.
  apply (top_level_spec Z.max Z.le); intros; lia.
Qed.

Lemma top_level_min levels : best_is Z.ge levels (top_level py_min levels).
Proof.
  apply (top_level_spec Z.min Z.ge); intros; lia.
Qed.

Lemma _update_top_of_book_current b :
  top_of_book_current (_update_top_of_book b).
Proof. split; [apply top_level_max | apply top_level_min]. Qed.

(** ** Frame lemmas: which fields each method touches *)

Lemma same_levels_refl b : same_levels b b.
Proof. by repeat split. Qed.

Lemma same_levels_trans b1 b2 b3 :
  same_levels b1 b2 → same_levels b2 b3 → same_levels b1 b3.
Proof.
  unfold same_levels. intros (?&?&?&?&?&?) (?&?&?&?&?&?).
  repeat split; congruence.
Qed.

Lemma _publish_to_kafka_same_levels b k r b' k' :
  _publish_to_kafka b k r = (b', k') → same_levels b b'.
Proof.
  unfold _publish_to_kafka.
  destruct (should_publish b), (producer b); simpl; intros [= <- <-];
    by repeat split.
Qed.

Lemma flush_same_levels (l : list record) : ∀ b k,
  same_levels b
    (foldl (λ st msg, _publish_to_kafka st.1 st.2 (Some msg)) (b, k) l).1.
Proof.
  induction l as [|r l IH]; intros b k; simpl.
  - apply same_levels_refl.
  - destruct (_publish_to_kafka b k (Some r)) as [b1 k1] eqn:E.
    eapply same_levels_trans; [|apply IH].
    by eapply _publish_to_kafka_same_levels.
Qed.

Lemma initialize_producer_same_levels b k b' k' :
  initialize_producer b k = (b', k') → same_levels b b'.
Proof.
  unfold initialize_producer.
  destruct (should_publish b && negb (producer b)); [|by intros [= <- <-];
    apply same_levels_refl].
  pose proof (flush_same_levels (pending_messages (set_producer b true))
                (set_producer b true) k) as H.
  destruct (foldl _ _ _) as [b2 k2]. intros [= <- <-].
  eapply same_levels_trans; [|eapply same_levels_trans; [exact H|]];
    by repeat split.
Qed.

Lemma same_levels_current b b' :
  same_levels b b' → top_of_book_current b → top_of_book_current b'.
Proof.
  unfold same_levels, top_of_book_current.
  intros (_&->&->&->&->&_). done.
Qed.

Lemma same_levels_positive b b' :
  same_levels b b' → levels_positive b → levels_positive b'.
Proof.
  unfold same_levels, levels_positive. intros (_&->&->&_). done.
Qed.

Create HintDb book_frame discriminated.

#[local] Hint Resolve same_levels_current same_levels_positive
  _publish_to_kafka_same_levels initialize_producer_same_levels : book_frame.

(** ** Snapshot ingestion *)

Lemma ingest_step_positive (orders : list (Z * Z)) : ∀ acc,
  all_positive acc →
  all_positive (foldl ingest_step acc orders).
Proof.
  induction orders as [|[p q] orders IH]; intros acc Hacc; simpl; [done|].
  apply IH. unfold ingest_step; simpl. case_bool_decide as Hq; [|done].
  intros p' q'. rewrite lookup_insert. case_decide; [|by apply Hacc].
  intros [= <-]. done.
Qed.

Lemma ingest_positive orders : all_positive (ingest orders).
Proof. apply ingest_step_positive. intros p q. by rewrite lookup_empty. Qed.

Lemma ingest_step_origin (orders : list (Z * Z)) : ∀ acc p q,
  foldl ingest_step acc orders !! p = Some q →
  acc !! p = Some q ∨ (p, q) ∈ orders.
Proof.
  induction orders as [|[p0 q0] orders IH]; intros acc p q; simpl; [auto|].
  intros H. apply IH in H as [H | H].
  - unfold ingest_step in H; simpl in H. case_bool_decide; [|auto].
    rewrite lookup_insert in H. case_decide; [|auto].
    simplify_eq. right. apply elem_of_cons. by left.
  - right. apply elem_of_cons. by right.
Qed.

Lemma ingest_origin orders p q :
  ingest orders !! p = Some q → (p, q) ∈ orders ∧ 0 < q.
Proof.
  intros H. split; [|by eapply ingest_positive].
  apply ingest_step_origin in H as [H | H]; [|done].
  by rewrite lookup_empty in H.
Qed.

Lemma OrderBook_init_levels d pub b :
  OrderBook_init d pub = Ok b →
  yes_levels b = ingest (msg_yes d) ∧ no_levels b = ingest (msg_no d) ∧
  msg_market_ticker d = Some (ticker b) ∧
  producer b = false ∧ should_publish b = pub ∧ pending_messages b = [].
Proof.
  unfold OrderBook_init. destruct (msg_market_ticker d); [|done].
  intros [= <-]. by repeat split.
Qed.

Lemma OrderBook_init_current d pub b :
  OrderBook_init d pub = Ok b → top_of_book_current b.
Proof.
  unfold OrderBook_init. destruct (msg_market_ticker d); [|done].
  intros [= <-]. apply _update_top_of_book_current.
Qed.

Lemma OrderBook_init_positive d pub b :
  OrderBook_init d pub = Ok b → levels_positive b.
Proof.
  intros H. apply OrderBook_init_levels in H as (Hy & Hn & _).
  unfold levels_positive. rewrite Hy, Hn. split; apply ingest_positive.
Qed.

(** ** Deltas *)

Lemma side_valid_iff side :
  bool_decide (side ∈ ["yes"; "no"]) = true ↔ side = "yes" ∨ side = "no".
Proof.
  rewrite bool_decide_eq_true, !elem_of_cons, elem_of_nil. tauto.
Qed.

Lemma _update_side_invalid b side p d :
  side ≠ "yes" → side ≠ "no" → _update_side b side p d = Raise InvalidSide.
Proof.
  intros H1 H2. unfold _update_side.
  rewrite bool_decide_eq_false_2; [done|].
  rewrite !elem_of_cons, elem_of_nil. tauto.
Qed.

Lemma _update_side_valid b side p d :
  side = "yes" ∨ side = "no" →
  _update_side b side p d =
    let new_quantity := current_quantity b side p + d in
    if bool_decide (new_quantity < 0) then Raise NegativeQuantity
    else Ok (_update_top_of_book
               (set_side b side
                  (with_quantity p new_quantity (side_levels b side)))).
Proof.
  intros Hside. unfold _update_side, current_quantity, side_levels,
    set_side, with_quantity.
  apply side_valid_iff in Hside. rewrite Hside. simpl.
  repeat case_bool_decide; try done; lia.
Qed.

Lemma _update_side_Ok b side p d b' :
  _update_side b side p d = Ok b' →
  (side = "yes" ∨ side = "no") ∧
  0 ≤ current_quantity b side p + d ∧
  b' = _update_top_of_book
         (set_side b side
            (with_quantity p (current_quantity b side p + d)
               (side_levels b side))).
Proof.
  intros H.
  destruct (bool_decide (side ∈ ["yes"; "no"])) eqn:Hs.
  - apply side_valid_iff in Hs. rewrite (_update_side_valid _ _ _ _ Hs) in H.
    simpl in H. case_bool_decide; [done|]. simplify_eq. by repeat split; try lia.
  - unfold _update_side in H. by rewrite Hs in H.
Qed.

Lemma set_side_levels b side m :
  side = "yes" ∨ side = "no" →
  side_levels (set_side b side m) side = m ∧
  (side = "yes" → no_levels (set_side b side m) = no_levels b) ∧
  (side = "no" → yes_levels (set_side b side m) = yes_levels b).
Proof.
  unfold set_side, side_levels. intros [-> | ->]; by repeat split.
Qed.

Lemma with_quantity_positive p n levels :
  0 ≤ n → all_positive levels → all_positive (with_quantity p n levels).
Proof.
  intros Hn Hpos p' q'. unfold with_quantity. case_bool_decide.
  - rewrite lookup_delete. case_decide; [done | apply Hpos].
  - rewrite lookup_insert. case_decide; [|apply Hpos].
    intros [= <-]. lia.
Qed.

Lemma _update_side_current b side p d b' :
  _update_side b side p d = Ok b' → top_of_book_current b'.
Proof.
  intros H. apply _update_side_Ok in H as (_ & _ & ->).
  apply _update_top_of_book_current.
Qed.

Lemma _update_side_positive b side p d b' :
  levels_positive b →
  _update_side b side p d = Ok b' → levels_positive b'.
Proof.
  intros [Hy Hn] H. apply _update_side_Ok in H as (Hside & Hnew & ->).
  unfold levels_positive, set_side, side_levels. simpl.
  destruct Hside as [-> | ->]; simpl; split; trivial;
    by apply with_quantity_positive.
Qed.

(** [update] either raises and leaves book and broker as they were, or runs
    [_update_side] and then publishes. *)
Lemma update_cases b k msg b' k' o :
  update b k msg = (b', k', o) →
  (∃ e, o = Raised e ∧ b' = b ∧ k' = k) ∨
  (o = Done ∧ ∃ side p d b1,
     msg_side msg = Some side ∧ msg_price msg = Some p ∧
     msg_delta msg = Some d ∧
     _update_side b side p d = Ok b1 ∧
     _publish_to_kafka b1 k None = (b', k')).
Proof.
  unfold update.
  destruct (msg_side msg) as [side|], (msg_price msg) as [p|],
    (msg_delta msg) as [d|]; try (intros [= <- <- <-]; left; eauto).
  destruct (truthy (Some side)); [|intros [= <- <- <-]; left; eauto].
  destruct (_update_side b side p d) as [b1|e] eqn:Hside.
  - destruct (_publish_to_kafka b1 k None) as [b2 k2] eqn:Hpub.
    intros [= <- <- <-]. right. split; [done|]. by exists side, p, d, b1.
  - intros [= <- <- <-]. left. eauto.
Qed.

(** ** Invariants of reachable books *)

Lemma reachable_invariant b :
  reachable b → top_of_book_current b ∧ levels_positive b.
Proof.
  induction 1 as [d pub b Hinit | b k msg b' k' o _ [IHc IHp] Hupd
                 | b side p d b' _ [IHc IHp] Hside
                 | b k b' k' _ [IHc IHp] Hprod
                 | b k r b' k' _ [IHc IHp] Hpub].
  - split; [by eapply OrderBook_init_current
           | by eapply OrderBook_init_positive].
  - apply update_cases in Hupd
      as [(e & _ & -> & _) | (_ & side & p & d & b1 & _ & _ & _ & Hs & Hpub)];
      [done|].
    apply _publish_to_kafka_same_levels in Hpub. split.
    + eapply same_levels_current; [done|]. by eapply _update_side_current.
    + eapply same_levels_positive; [done|]. by eapply _update_side_positive.
  - split; [by eapply _update_side_current
           | by eapply _update_side_positive].
  - split; eauto with book_frame.
  - split; eauto with book_frame.
Qed.

(** ** The scenario books are reachable *)

Lemma book_X_init : OrderBook_init snapshot_X true = Ok book_X.
Proof. vm_compute. reflexivity. Qed.

Lemma book_X_update :
  update book_X [] (delta_payload "X" "yes" 40 (-10)) = (book_X_sold, [], Done).
Proof. vm_compute. reflexivity. Qed.

Lemma book_X_reachable : reachable book_X.
Proof. exact (reach_init snapshot_X true book_X book_X_init). Defined.

Lemma book_X_sold_reachable : reachable book_X_sold.
Proof.
  exact (reach_update book_X [] (delta_payload "X" "yes" 40 (-10))
           book_X_sold [] Done book_X_reachable book_X_update).
Defined.

(** ** Claims about the best of book and the level quantities *)

(** C3. After every construction of an [OrderBook] from a snapshot and after
    every applied delta (every state an instance goes through), [best_yes]
    is the entry of [yes_levels] with the maximum price and [best_no] the
    entry of [no_levels] with the minimum price; each is absent if and only
    if its side is empty. *)
Theorem best_of_book_never_stale (b : OrderBook) :
  reachable b → top_of_book_current b.
Proof. intros H. by apply reachable_invariant. Qed.

Lemma best_of_book_never_stale_witness :
  reachable book_X_sold ∧ top_of_book_current book_X_sold.
Proof.
  split; [exact book_X_sold_reachable|].
  exact (best_of_book_never_stale book_X_sold book_X_sold_reachable).
Defined.

Lemma same_levels_side b b' side :
  same_levels b b' → side_levels b' side = side_levels b side.
Proof.
  unfold same_levels, side_levels. intros (_&->&->&_). done.
Qed.

Lemma _update_top_of_book_side b side :
  side_levels (_update_top_of_book b) side = side_levels b side.
Proof. done. Qed.

(** C4. No state an [OrderBook] instance goes through holds a level with a
    quantity of zero or less: the constructor skips the pairs of a snapshot
    whose quantity is not positive, and a delta that brings a level to
    exactly zero removes the price key. *)
Theorem levels_never_nonpositive (b : OrderBook) :
  reachable b →
  levels_positive b ∧
  ∀ k msg side p d b' k',
    msg_side msg = Some side → msg_price msg = Some p →
    msg_delta msg = Some d →
    update b k msg = (b', k', Done) →
    current_quantity b side p + d = 0 →
    side_levels b' side !! p = None.
Proof.
  intros Hreach. split; [by apply reachable_invariant|].
  intros k msg side p d b' k' Hs Hp Hd Hupd Hzero.
  apply update_cases in Hupd
    as [(e & ? & _) | (_ & side' & p' & d' & b1 & Hs' & Hp' & Hd' & H1 & Hpub)];
    [done|].
  simplify_eq.
  apply _publish_to_kafka_same_levels in Hpub.
  rewrite (same_levels_side _ _ side Hpub).
  apply _update_side_Ok in H1 as (Hside & _ & ->).
  rewrite _update_top_of_book_side.
  destruct (set_side_levels b side
              (with_quantity p (current_quantity b side p + d)
                 (side_levels b side)) Hside) as (-> & _).
  rewrite Hzero. unfold with_quantity. simpl. apply lookup_delete_eq.
Qed.

Lemma levels_never_nonpositive_witness :
  levels_positive book_X_sold ∧ side_levels book_X_sold "yes" !! 40 = None.
Proof.
  destruct (levels_never_nonpositive book_X book_X_reachable) as [_ Hzero].
  split.
  - exact (proj1 (levels_never_nonpositive book_X_sold book_X_sold_reachable)).
  - apply (Hzero [] (delta_payload "X" "yes" 40 (-10)) "yes" 40 (-10)
             book_X_sold []); reflexivity.
Defined.

(** C5. A delta that would bring a level below zero raises
    [NegativeQuantity]; the book (levels, best of book, buffered records)
    and the broker are what they were, so no replication record was
    emitted. *)
Theorem negative_delta_rejected (b : OrderBook) (k : broker) (msg : payload)
    (side : string) (p d : Z) :
  msg_side msg = Some side → msg_price msg = Some p → msg_delta msg = Some d →
  side = "yes" ∨ side = "no" →
  current_quantity b side p + d < 0 →
  update b k msg = (b, k, Raised NegativeQuantity).
Proof.
  intros Hs Hp Hd Hside Hneg. unfold update. rewrite Hs, Hp, Hd.
  assert (truthy (Some side) = true) as -> by (by destruct Hside as [-> | ->]).
  rewrite (_update_side_valid _ _ _ _ Hside). simpl.
  by rewrite bool_decide_eq_true_2.
Qed.

Lemma negative_delta_rejected_witness :
  update book_X [] (delta_payload "X" "yes" 40 (-11))
  = (book_X, [], Raised NegativeQuantity).
Proof.
  apply (negative_delta_rejected book_X [] _ "yes" 40 (-11));
    [reflexivity | reflexivity | reflexivity | left; reflexivity
    | vm_compute; reflexivity].
Defined.

(** ** Consolidated book *)

Lemma complement_fold (l : list (Z * Z)) :
  NoDup l.*1 → ∀ (acc : gmap Z Z) p,
  foldl complement_step acc l !! (100 - p)
  = match (list_to_map l : gmap Z Z) !! p with
    | Some q => Some q
    | None => acc !! (100 - p)
    end.
Proof.
  induction l as [|[p0 q0] l IH]; intros Hnd acc p; simpl.
  - by rewrite lookup_empty.
  - simpl in Hnd. apply NoDup_cons in Hnd as [Hp0 Hnd].
    rewrite (IH Hnd). unfold complement_step; simpl.
    destruct (decide (p0 = p)) as [-> | Hne].
    + rewrite lookup_insert_eq.
      apply (not_elem_of_list_to_map_1 (M := gmap Z)) in Hp0.
      by rewrite Hp0, lookup_insert_eq.
    + rewrite (lookup_insert_ne _ p0 p) by done.
      rewrite (lookup_insert_ne acc (100 - p0) (100 - p)) by lia. done.
Qed.

(** The comprehension of [get_book] gives the same dictionary in whatever
    order it visits the items of [alt_bids]. *)
Lemma complement_any_order (alt_bids : gmap Z Z) (l : list (Z * Z)) p :
  l ≡ₚ map_to_list alt_bids →
  foldl complement_step ∅ l !! (100 - p) = alt_bids !! p.
Proof.
  intros Hperm. rewrite complement_fold.
  - rewrite (list_to_map_proper l (map_to_list alt_bids)).
    + rewrite list_to_map_to_list, lookup_empty. by destruct (alt_bids !! p).
    + rewrite Hperm. apply NoDup_fst_map_to_list.
    + done.
  - rewrite Hperm. apply NoDup_fst_map_to_list.
Qed.

Lemma complement_lookup (alt_bids : gmap Z Z) p :
  complement alt_bids !! (100 - p) = alt_bids !! p.
Proof. by apply complement_any_order. Qed.

Lemma complement_lookup' (alt_bids : gmap Z Z) p :
  complement alt_bids !! p = alt_bids !! (100 - p).
Proof.
  replace p with (100 - (100 - p)) at 1 by lia. apply complement_lookup.
Qed.

Lemma complement_involutive (m : gmap Z Z) : complement (complement m) = m.
Proof.
  apply map_eq. intros p. rewrite !complement_lookup'. f_equal. lia.
Qed.

Lemma complement_dom (m : gmap Z Z) :
  set_map (C := gset Z) (D := gset Z) (λ p, 100 - p) (dom (complement m))
  = dom m.
Proof.
  apply set_eq. intros p. rewrite elem_of_map. split.
  - intros (p' & -> & Hp'). apply elem_of_dom in Hp'. apply elem_of_dom.
    by rewrite complement_lookup' in Hp'.
  - intros Hp. exists (100 - p). split; [lia|].
    apply elem_of_dom. rewrite complement_lookup. by apply elem_of_dom.
Qed.

(** C6. [get_book('yes')] has the yes levels as bids and, as offers, every
    no level [p] under the key [100 - p] with its quantity; symmetrically
    for the perspective ['no'].  Mapping the offer keys back through
    [100 - p] gives exactly the price set of the opposite side, and doing
    the transform twice gives the opposite side back.  [get_book] only
    reads the two level dictionaries and returns a view; the book is not
    among its results, so there is nothing it could have changed. *)
Theorem consolidated_book_complement (b : OrderBook) :
  bids (get_book b "yes") = yes_levels b ∧
  (∀ p, offers (get_book b "yes") !! (100 - p) = no_levels b !! p) ∧
  bids (get_book b "no") = no_levels b ∧
  (∀ p, offers (get_book b "no") !! (100 - p) = yes_levels b !! p) ∧
  set_map (C := gset Z) (D := gset Z) (λ p, 100 - p)
    (dom (offers (get_book b "yes"))) = dom (no_levels b) ∧
  set_map (C := gset Z) (D := gset Z) (λ p, 100 - p)
    (dom (offers (get_book b "no"))) = dom (yes_levels b) ∧
  complement (offers (get_book b "yes")) = no_levels b ∧
  complement (offers (get_book b "no")) = yes_levels b.
Proof.
  unfold get_book; simpl.
  repeat split; intros;
    auto using complement_lookup, complement_dom, complement_involutive.
Qed.

(** ** Replication: buffering and flushing *)

Lemma _update_side_frame b side p d b' :
  _update_side b side p d = Ok b' →
  ticker b' = ticker b ∧ producer b' = producer b ∧
  should_publish b' = should_publish b ∧
  pending_messages b' = pending_messages b.
Proof.
  intros H. apply _update_side_Ok in H as (_ & _ & ->).
  unfold set_side. by case_bool_decide.
Qed.


Lemma _publish_to_kafka_sends b k r :
  should_publish b = true → producer b = true →
  _publish_to_kafka b k r = (b, k ++ [sent b (default (own_record b) r)]).
Proof. intros Hs Hp. unfold _publish_to_kafka. by rewrite Hs, Hp. Qed.



Lemma flush_sends (l : list record) : ∀ b k,
  should_publish b = true → producer b = true →
  foldl (λ st msg, _publish_to_kafka st.1 st.2 (Some msg)) (b, k) l
  = (b, k ++ (sent b <$> l)).
Proof.
  induction l as [|r l IH]; intros b k Hs Hp; simpl.
  - by rewrite app_nil_r.
  - rewrite _publish_to_kafka_sends by done. simpl.
    rewrite IH by done. by rewrite <- app_assoc.
Qed.

Lemma initialize_producer_flushes b k :
  should_publish b = true → producer b = false →
  initialize_producer b k
  = (set_pending (set_producer b true) [],
     k ++ (sent b <$> pending_messages b)).
Proof.
  intros Hs Hp. unfold initialize_producer. rewrite Hs, Hp. simpl.
  rewrite flush_sends by done. done.
Qed.

Lemma step_extends b k o b' k' :
  step (b, k) o = (b', k') → ∃ live, k' = k ++ live.
Proof.
  destruct o as [msg | r]; simpl.
  - destruct (update b k msg) as [[b0 k0] o] eqn:Hupd. simpl.
    intros [= -> ->].
    apply update_cases in Hupd
      as [(e & _ & _ & ->) | (_ & side & p & d & b1 & _ & _ & _ & _ & Hpub)].
    + exists []. by rewrite app_nil_r.
    + revert Hpub. unfold _publish_to_kafka.
      destruct (should_publish b1), (producer b1); simpl; intros [= <- <-];
        eauto; exists []; by rewrite app_nil_r.
  - unfold _publish_to_kafka.
    destruct (should_publish b), (producer b); simpl; intros [= <- <-];
      eauto; exists []; by rewrite app_nil_r.
Qed.

Lemma run_extends (ops : list op) : ∀ b k b' k',
  run b k ops = (b', k') → ∃ live, k' = k ++ live.
Proof.
  unfold run. induction ops as [|o ops IH]; intros b k b' k'; simpl.
  - intros [= <- <-]. exists []. by rewrite app_nil_r.
  - destruct (step (b, k) o) as [b1 k1] eqn:Hstep.
    apply step_extends in Hstep as [l1 ->].
    intros Hrun. apply IH in Hrun as [l2 ->].
    exists (l1 ++ l2). by rewrite app_assoc.
Qed.





(** The two records buffered by [two_deltas] were built after different
    deltas, yet both reach the broker with the levels the book has when the
    producer attaches: the buffer holds the book's dictionaries, not copies
    of them. *)
Example flushed_records_read_the_book :
  (initialize_producer (run book_X [] two_deltas).1 []).2
  = [("orderbook.X", mkWire "X" {[ 40 := 18 ]} {[ 55 := 20 ]});
     ("orderbook.X", mkWire "X" {[ 40 := 18 ]} {[ 55 := 20 ]})].
Proof. vm_compute. reflexivity. Qed.

(** ** A delta of zero at an absent price *)

Lemma best_is_unique le levels o1 o2 :
  (∀ x y, le x y → le y x → x = y) →
  best_is le levels o1 → best_is le levels o2 → o1 = o2.
Proof.
  intros Hanti [Hn1 Hs1] [Hn2 Hs2].
  destruct o1 as [[p1 q1]|], o2 as [[p2 q2]|]; try done.
  - destruct (Hs1 _ eq_refl) as [Hl1 Hub1], (Hs2 _ eq_refl) as [Hl2 Hub2].
    simpl in *.
    assert (p1 = p2) as -> by (apply Hanti; eauto).
    congruence.
  - destruct (Hs1 _ eq_refl) as [Hl1 _]. simpl in Hl1.
    rewrite (proj1 Hn2 eq_refl), lookup_empty in Hl1. done.
  - destruct (Hs2 _ eq_refl) as [Hl2 _]. simpl in Hl2.
    rewrite (proj1 Hn1 eq_refl), lookup_empty in Hl2. done.
Qed.

Lemma _update_top_of_book_id b :
  top_of_book_current b → _update_top_of_book b = b.
Proof.
  intros [Hy Hn]. unfold _update_top_of_book.
  rewrite <- (best_is_unique Z.le _ _ _ ltac:(intros; lia) Hy
                (top_level_max (yes_levels b))).
  rewrite <- (best_is_unique Z.ge _ _ _ ltac:(intros; lia) Hn
                (top_level_min (no_levels b))).
  by destruct b.
Qed.

Lemma set_side_id b side : set_side b side (side_levels b side) = b.
Proof. unfold set_side, side_levels. case_bool_decide; by destruct b. Qed.

Lemma _update_side_zero_absent b side p :
  top_of_book_current b →
  side = "yes" ∨ side = "no" →
  side_levels b side !! p = None →
  _update_side b side p 0 = Ok b.
Proof.
  intros Hcur Hside Habs. rewrite (_update_side_valid _ _ _ _ Hside).
  unfold current_quantity, with_quantity. rewrite Habs. simpl.
  rewrite delete_id by done.
  by rewrite set_side_id, _update_top_of_book_id.
Qed.

Lemma book_X_reader_init : OrderBook_init snapshot_X false = Ok book_X_reader.
Proof. vm_compute. reflexivity. Qed.

Lemma book_X_reader_reachable : reachable book_X_reader.
Proof. exact (reach_init snapshot_X false book_X_reader book_X_reader_init). Defined.

(** C10, as stated, fails on a book built with [publish_to_kafka=False]:
    the delta of zero at the absent price 41 returns normally, and neither
    the broker nor the buffer has received a record. *)
Lemma zero_delta_emits_nothing_when_not_publishing :
  reachable book_X_reader ∧
  side_levels book_X_reader "yes" !! 41 = None ∧
  update book_X_reader [] (delta_payload "X" "yes" 41 0)
  = (book_X_reader, [], Done) ∧
  ¬ (∃ b' k',
       update book_X_reader [] (delta_payload "X" "yes" 41 0) = (b', k', Done) ∧
       (k' ≠ [] ∨ pending_messages b' ≠ pending_messages book_X_reader)).
Proof.
  assert (update book_X_reader [] (delta_payload "X" "yes" 41 0)
          = (book_X_reader, [], Done)) as Hupd by (vm_compute; reflexivity).
  split; [exact book_X_reader_reachable|].
  split; [vm_compute; reflexivity|].
  split; [exact Hupd|].
  intros (b' & k' & Hupd' & Hemit). rewrite Hupd in Hupd'.
  injection Hupd' as <- <-. by destruct Hemit.
Qed.

(** C10, amended.  On every state an [OrderBook] goes through, a delta of
    zero at a price absent from its side returns normally and leaves both
    level dictionaries and both best levels as they were.  With publishing
    enabled it still emits a record of that unchanged state: sent to the
    topic if the producer is attached, appended to the buffer otherwise.
    With publishing disabled nothing is emitted. *)
Theorem zero_delta_on_absent_price (b : OrderBook) (k : broker)
    (msg : payload) (side : string) (p : Z) :
  reachable b →
  msg_side msg = Some side → msg_price msg = Some p → msg_delta msg = Some 0 →
  side = "yes" ∨ side = "no" →
  side_levels b side !! p = None →
  ∃ b' k',
    update b k msg = (b', k', Done) ∧
    yes_levels b' = yes_levels b ∧ no_levels b' = no_levels b ∧
    best_yes b' = best_yes b ∧ best_no b' = best_no b ∧
    match should_publish b, producer b with
    | true, true => b' = b ∧ k' = k ++ [state_wire b]
    | true, false =>
        b' = set_pending b (pending_messages b ++ [own_record b]) ∧ k' = k
    | false, _ => b' = b ∧ k' = k
    end.
Proof.
  intros Hreach Hs Hp Hd Hside Habs.
  apply reachable_invariant in Hreach as [Hcur _].
  unfold update. rewrite Hs, Hp, Hd.
  assert (truthy (Some side) = true) as -> by (by destruct Hside as [-> | ->]).
  rewrite _update_side_zero_absent by done.
  unfold _publish_to_kafka, state_wire.
  destruct (should_publish b), (producer b); simpl;
    eexists _, _; repeat split; reflexivity.
Qed.

Lemma zero_delta_on_absent_price_witness :
  ∃ b' k',
    update book_X [] (delta_payload "X" "no" 41 0) = (b', k', Done) ∧
    yes_levels b' = yes_levels book_X ∧ no_levels b' = no_levels book_X ∧
    best_yes b' = best_yes book_X ∧ best_no b' = best_no book_X ∧
    b' = set_pending book_X (pending_messages book_X ++ [own_record book_X]) ∧
    k' = [].
Proof.
  apply (zero_delta_on_absent_price book_X [] (delta_payload "X" "no" 41 0)
           "no" 41 book_X_reachable);
    [reflexivity | reflexivity | reflexivity | right; reflexivity
    | vm_compute; reflexivity].
Defined.

(** ** Sequence numbers *)

Lemma _check_sequence_missing mgr channel :
  _check_sequence mgr channel None = (mgr, Raised MissingSequence).
Proof. done. Qed.

Lemma _check_sequence_unset mgr channel s :
  sequence_numbers mgr !! channel = Some (-1) →
  _check_sequence mgr channel (Some s)
  = (set_sequence_numbers mgr (<[channel := s]> (sequence_numbers mgr)), Done).
Proof. intros H. unfold _check_sequence. by rewrite H. Qed.

Lemma _check_sequence_next mgr channel last_seq :
  sequence_numbers mgr !! channel = Some last_seq →
  _check_sequence mgr channel (Some (last_seq + 1))
  = (set_sequence_numbers mgr
       (<[channel := last_seq + 1]> (sequence_numbers mgr)), Done).
Proof.
  intros H. unfold _check_sequence. rewrite H.
  rewrite (bool_decide_eq_true_2 (last_seq + 1 = last_seq + 1)) by done.
  by rewrite andb_false_r.
Qed.

Lemma _check_sequence_gap mgr channel last_seq s :
  sequence_numbers mgr !! channel = Some last_seq →
  last_seq ≠ -1 → s ≠ last_seq + 1 →
  _check_sequence mgr channel (Some s) = (mgr, Raised SequenceGap).
Proof.
  intros H Hset Hgap. unfold _check_sequence. rewrite H.
  by rewrite !bool_decide_eq_false_2.
Qed.

(** Once a number other than -1 is recorded for a channel, the check passes
    exactly on its successor, and a failed check records nothing. *)
Lemma _check_sequence_strict mgr channel last_seq s :
  sequence_numbers mgr !! channel = Some last_seq →
  last_seq ≠ -1 →
  ((_check_sequence mgr channel (Some s)).2 = Done ↔ s = last_seq + 1) ∧
  ((_check_sequence mgr channel (Some s)).2 ≠ Done →
   _check_sequence mgr channel (Some s) = (mgr, Raised SequenceGap)).
Proof.
  intros H Hset. destruct (decide (s = last_seq + 1)) as [-> | Hne].
  - rewrite (_check_sequence_next _ _ _ H). simpl. by split.
  - rewrite (_check_sequence_gap _ _ _ _ H Hset Hne). simpl. by split.
Qed.

Lemma _check_sequence_orderbooks mgr channel seq_no :
  orderbooks (_check_sequence mgr channel seq_no).1 = orderbooks mgr.
Proof.
  unfold _check_sequence. destruct seq_no as [s|]; [|done].
  destruct (sequence_numbers mgr !! channel); [|done].
  by destruct (_ && _).
Qed.

Lemma _check_sequence_raised mgr channel seq_no e :
  (_check_sequence mgr channel seq_no).2 = Raised e →
  (_check_sequence mgr channel seq_no).1 = mgr.
Proof.
  unfold _check_sequence. destruct seq_no as [s|]; [|done].
  destruct (sequence_numbers mgr !! channel); [|done].
  by destruct (_ && _).
Qed.

(** The scenario of the specification: 5 is accepted first, 7 is a gap,
    and 6 is then still accepted. *)
Example sequence_5_7_6 :
  let st1 := _check_sequence OrderbookManager_init "orderbook_delta" (Some 5) in
  let st2 := _check_sequence st1.1 "orderbook_delta" (Some 7) in
  let st3 := _check_sequence st2.1 "orderbook_delta" (Some 6) in
  st1.2 = Done ∧ st2.2 = Raised SequenceGap ∧ st3.2 = Done ∧
  sequence_numbers st3.1 !! "orderbook_delta" = Some 6.
Proof. vm_compute. done. Qed.

(** C2, at the input where the source departs from it: the first trade
    message carries sequence number -1, which is accepted and recorded; the
    next one carries 5, which is not -1 + 1, and is accepted as well. *)
Lemma gap_after_minus_one_goes_unnoticed :
  let st1 := process_message OrderbookManager_init []
               (feed "trade" (-1) (trade_payload "X")) in
  let st2 := process_message st1.1.1 st1.1.2
               (feed "trade" 5 (trade_payload "X")) in
  st1.2 = Done ∧ sequence_numbers st1.1.1 !! "trade" = Some (-1) ∧
  st2.2 = Done ∧ sequence_numbers st2.1.1 !! "trade" = Some 5.
Proof. vm_compute. done. Qed.

(** C9. On a channel with nothing recorded yet, a first sequence number of
    -1 is accepted and recorded; the record is then indistinguishable from
    "unset", so the following check on that channel passes for every
    sequence number and records it. *)
Theorem minus_one_reads_as_unset (mgr : OrderbookManager) (channel : string) :
  sequence_numbers mgr !! channel = Some (-1) →
  let first := _check_sequence mgr channel (Some (-1)) in
  first.2 = Done ∧
  sequence_numbers first.1 !! channel = Some (-1) ∧
  ∀ s,
    let second := _check_sequence first.1 channel (Some s) in
    second.2 = Done ∧ sequence_numbers second.1 !! channel = Some s.
Proof.
  intros H. cbv zeta. rewrite (_check_sequence_unset _ _ _ H).
  cbn [fst snd set_sequence_numbers sequence_numbers].
  rewrite lookup_insert_eq. split; [done|]. split; [done|].
  intros s.
  rewrite (_check_sequence_unset _ _ s)
    by (cbn [sequence_numbers]; apply lookup_insert_eq).
  cbn [fst snd set_sequence_numbers sequence_numbers].
  split; [done | apply lookup_insert_eq].
Qed.

Lemma minus_one_reads_as_unset_witness :
  let first := _check_sequence OrderbookManager_init "orderbook_delta"
                 (Some (-1)) in
  first.2 = Done ∧
  sequence_numbers first.1 !! "orderbook_delta" = Some (-1) ∧
  ∀ s,
    let second := _check_sequence first.1 "orderbook_delta" (Some s) in
    second.2 = Done ∧ sequence_numbers second.1 !! "orderbook_delta" = Some s.
Proof.
  apply (minus_one_reads_as_unset OrderbookManager_init "orderbook_delta").
  reflexivity.
Defined.

(** ** Messages with a missing field *)

(** C7, as stated, fails: an 'orderbook_delta' message whose content has no
    ticker is not an error.  [process_message] returns normally, and books,
    sequence numbers and broker are what they were. *)
Lemma delta_without_ticker_is_ignored :
  process_message OrderbookManager_init []
    (feed "orderbook_delta" 1 (no_ticker [] [] (Some "yes") (Some 40) (Some 1)))
  = (OrderbookManager_init, [], Done) ∧
  (process_message OrderbookManager_init []
     (feed "orderbook_delta" 1
        (no_ticker [] [] (Some "yes") (Some 40) (Some 1)))).2
  ≠ Raised MalformedMessage.
Proof. split; [vm_compute; reflexivity | vm_compute; discriminate]. Qed.

(** C7, amended.  A message with no channel type (absent or empty) raises
    [MalformedMessage] and changes nothing.  An 'orderbook_snapshot' or
    'orderbook_delta' message whose content has no ticker (or that has no
    content at all) is logged and skipped: [process_message] returns
    normally, no book is created or updated, and its sequence number is
    neither checked nor recorded.  Only the [OrderBook] constructor, handed
    such a dictionary directly, raises [MalformedMessage]. *)
Theorem missing_channel_raises_missing_ticker_skips (mgr : OrderbookManager)
    (k : broker) (seq_no : option Z) (content : option payload)
    (ys ns : list (Z * Z)) (sd : option string) (pr dl : option Z)
    (publish_to_kafka : bool) :
  OrderBook_init (no_ticker ys ns sd pr dl) publish_to_kafka
  = Raise MalformedMessage ∧
  process_message mgr k (mkMessage None seq_no content)
  = (mgr, k, Raised MalformedMessage) ∧
  process_message mgr k (mkMessage (Some "") seq_no content)
  = (mgr, k, Raised MalformedMessage) ∧
  process_message mgr k
    (mkMessage (Some "orderbook_snapshot") seq_no
       (Some (no_ticker ys ns sd pr dl))) = (mgr, k, Done) ∧
  process_message mgr k
    (mkMessage (Some "orderbook_delta") seq_no
       (Some (no_ticker ys ns sd pr dl))) = (mgr, k, Done) ∧
  process_message mgr k (mkMessage (Some "orderbook_snapshot") seq_no None)
  = (mgr, k, Done) ∧
  process_message mgr k (mkMessage (Some "orderbook_delta") seq_no None)
  = (mgr, k, Done).
Proof. by repeat split. Qed.

(** ** Order of payload handling and sequence check *)

Lemma _process_orderbook_snapshot_sequence mgr k t content :
  sequence_numbers (_process_orderbook_snapshot mgr k t content).1.1
  = sequence_numbers mgr.
Proof.
  unfold _process_orderbook_snapshot.
  destruct (OrderBook_init content true); [|done].
  by destruct (initialize_producer _ _).
Qed.

Lemma _process_orderbook_delta_sequence mgr k t content :
  sequence_numbers (_process_orderbook_delta mgr k t content).1.1
  = sequence_numbers mgr.
Proof.
  unfold _process_orderbook_delta.
  destruct (orderbooks mgr !! t); [|done].
  by destruct (update _ _ _) as [[??]?].
Qed.

Lemma process_message_order_book mgr k m channel t :
  m_type m = Some channel →
  channel = "orderbook_snapshot" ∨ channel = "orderbook_delta" →
  msg_market_ticker (default empty_payload (m_msg m)) = Some t →
  process_message mgr k m
  = then_check
      (payload_handler channel mgr k t (default empty_payload (m_msg m)))
      channel (m_seq m).
Proof.
  intros Hty Hch Ht. unfold process_message, payload_handler.
  rewrite Hty, Ht. by destruct Hch as [-> | ->].
Qed.

(** On the feed snapshot 1, delta 2, delta 4 the late delta raises
    [SequenceGap], the recorded number stays 2, and yet the book of X
    holds 18 at price 40 and the record of that state has gone out to the
    topic. *)
Example late_delta_is_applied :
  let st := process_message after_first_delta.1.1 after_first_delta.1.2
              late_delta in
  after_snapshot.2 = Done ∧ after_first_delta.2 = Done ∧
  st.2 = Raised SequenceGap ∧
  sequence_numbers st.1.1 !! "orderbook_delta" = Some 2 ∧
  (yes_levels <$> orderbooks after_first_delta.1.1 !! "X")
  = Some {[ 40 := 15 ]} ∧
  (yes_levels <$> orderbooks st.1.1 !! "X") = Some {[ 40 := 18 ]} ∧
  st.1.2
  = [("orderbook.X", mkWire "X" {[ 40 := 15 ]} {[ 55 := 20 ]});
     ("orderbook.X", mkWire "X" {[ 40 := 18 ]} {[ 55 := 20 ]})].
Proof. vm_compute. done. Qed.

(** The scenarios of the specification on the manager. *)
Example delta_before_snapshot :
  (process_message OrderbookManager_init []
     (feed "orderbook_delta" 1 (delta_payload "X" "yes" 40 5))).2
  = Raised UnknownMarket.
Proof. vm_compute. reflexivity. Qed.

Example duplicate_sequence_number :
  let st1 := process_message after_snapshot.1.1 after_snapshot.1.2
               (feed "orderbook_delta" 10 (delta_payload "X" "yes" 40 5)) in
  let st2 := process_message st1.1.1 st1.1.2
               (feed "orderbook_delta" 10 (delta_payload "X" "yes" 40 5)) in
  st1.2 = Done ∧ st2.2 = Raised SequenceGap.
Proof. vm_compute. done. Qed.

(** ** Further properties of [OrderBook.update] *)

(** X1. [update] raises [MalformedMessage] exactly when the side is absent
    or empty, or the price is absent, or the delta is absent; a price of 0
    and a delta of 0 count as present.  When it does, book and broker are
    what they were. *)
Theorem update_malformed_iff (b : OrderBook) (k : broker) (msg : payload) :
  ((update b k msg).2 = Raised MalformedMessage ↔
   truthy (msg_side msg) = false ∨ msg_price msg = None ∨ msg_delta msg = None)
  ∧ ((update b k msg).2 = Raised MalformedMessage → (update b k msg).1 = (b, k)).
Proof.
  unfold update.
  destruct (msg_side msg) as [side|], (msg_price msg) as [p|],
    (msg_delta msg) as [d|]; simpl; try (split; [split|]; auto; fail).
  destruct (bool_decide (side = "")) eqn:Hempty; simpl.
  { split; [split|]; auto. }
  destruct (_update_side b side p d) as [b1|e] eqn:Hside.
  - destruct (_publish_to_kafka b1 k None) as [b2 k2]. simpl.
    split; [split|]; [done| |done]. intros [?|[?|?]]; done.
  - simpl. assert (e ≠ MalformedMessage) as Hne.
    { intros ->. revert Hside. unfold _update_side.
      repeat (case_bool_decide; simpl); done. }
    split; [split|]; [congruence| |congruence]. intros [?|[?|?]]; done.
Qed.

(** X2. A side that is neither ["yes"] nor ["no"] (the comparison is exact:
    ["YES"] is not ["yes"]) raises [InvalidSide]; nothing is changed and
    nothing is published. *)
Theorem update_invalid_side (b : OrderBook) (k : broker) (msg : payload)
    (side : string) (p d : Z) :
  msg_side msg = Some side → msg_price msg = Some p → msg_delta msg = Some d →
  side ≠ "" → side ≠ "yes" → side ≠ "no" →
  update b k msg = (b, k, Raised InvalidSide).
Proof.
  intros Hs Hp Hd Hne Hy Hn. unfold update. rewrite Hs, Hp, Hd. simpl.
  rewrite bool_decide_eq_false_2 by done. simpl.
  by rewrite _update_side_invalid.
Qed.

Lemma update_invalid_side_witness :
  update book_X [] (delta_payload "X" "YES" 40 1)
  = (book_X, [], Raised InvalidSide).
Proof.
  apply (update_invalid_side book_X [] _ "YES" 40 1); done.
Defined.

Lemma with_quantity_lookup p n (levels : gmap Z Z) p' :
  with_quantity p n levels !! p'
  = if decide (p = p') then (if decide (n = 0) then None else Some n)
    else levels !! p'.
Proof.
  unfold with_quantity. case_bool_decide; repeat case_decide; try done.
  - subst. apply lookup_delete_eq.
  - by apply lookup_delete_ne.
  - subst. apply lookup_insert_eq.
  - by apply lookup_insert_ne.
Qed.

Lemma update_Done b k msg b' k' :
  update b k msg = (b', k', Done) →
  ∃ side p d,
    msg_side msg = Some side ∧ msg_price msg = Some p ∧
    msg_delta msg = Some d ∧ (side = "yes" ∨ side = "no") ∧
    0 ≤ current_quantity b side p + d ∧
    same_levels
      (_update_top_of_book
         (set_side b side
            (with_quantity p (current_quantity b side p + d)
               (side_levels b side)))) b'.
Proof.
  intros H. apply update_cases in H
    as [(e & ? & _) | (_ & side & p & d & b1 & Hs & Hp & Hd & H1 & Hpub)];
    [done|].
  exists side, p, d. apply _update_side_Ok in H1 as (Hside & Hnew & ->).
  split; [done|]. split; [done|]. split; [done|]. split; [done|].
  split; [done|]. by eapply _publish_to_kafka_same_levels.
Qed.

(** X3. An applied delta changes one cell: the quantity at its side and
    price becomes the old one plus the delta (the key disappears if that is
    0), every other price of that side and the whole other side are what
    they were, and so is the ticker. *)
Theorem delta_changes_one_cell (b : OrderBook) (k : broker) (msg : payload)
    (side : string) (p d : Z) (b' : OrderBook) (k' : broker) :
  msg_side msg = Some side → msg_price msg = Some p → msg_delta msg = Some d →
  update b k msg = (b', k', Done) →
  side_levels b' side !! p
  = (if decide (current_quantity b side p + d = 0) then None
     else Some (current_quantity b side p + d)) ∧
  (∀ p', p' ≠ p → side_levels b' side !! p' = side_levels b side !! p') ∧
  (if decide (side = "yes") then no_levels b' = no_levels b
   else yes_levels b' = yes_levels b) ∧
  ticker b' = ticker b.
Proof.
  intros Hs Hp Hd Hupd.
  apply update_Done in Hupd as (s' & p' & d' & Hs' & Hp' & Hd' & Hside & _ & Hsame).
  simplify_eq.
  rewrite (same_levels_side _ _ side Hsame), _update_top_of_book_side.
  destruct (set_side_levels b side
              (with_quantity p (current_quantity b side p + d)
                 (side_levels b side)) Hside) as (Hl & Hno & Hyes).
  rewrite Hl. destruct Hsame as (Ht & Hy & Hn & _).
  split; [|split; [|split]].
  - rewrite with_quantity_lookup. by rewrite decide_True.
  - intros q Hq. rewrite with_quantity_lookup. by rewrite decide_False.
  - case_decide as Hc.
    + rewrite Hn. simpl. by apply Hno.
    + rewrite Hy. simpl. apply Hyes. by destruct Hside.
  - rewrite Ht. simpl. unfold set_side. by case_bool_decide.
Qed.

Lemma delta_changes_one_cell_witness :
  side_levels book_X_sold "yes" !! 40
  = (if decide (current_quantity book_X "yes" 40 + -10 = 0) then None
     else Some (current_quantity book_X "yes" 40 + -10)) ∧
  (∀ p', p' ≠ 40 →
         side_levels book_X_sold "yes" !! p' = side_levels book_X "yes" !! p') ∧
  (if decide ("yes" = "yes") then no_levels book_X_sold = no_levels book_X
   else yes_levels book_X_sold = yes_levels book_X) ∧
  ticker book_X_sold = ticker book_X.
Proof.
  apply (delta_changes_one_cell book_X [] (delta_payload "X" "yes" 40 (-10))
           "yes" 40 (-10) book_X_sold []); reflexivity.
Defined.

(** ** Deltas compose *)

Lemma with_quantity_twice p n n' (levels : gmap Z Z) :
  with_quantity p n' (with_quantity p n levels) = with_quantity p n' levels.
Proof.
  apply map_eq. intros p'. rewrite !with_quantity_lookup.
  by case_decide.
Qed.

Lemma current_quantity_after b side p n :
  side = "yes" ∨ side = "no" →
  current_quantity
    (_update_top_of_book
       (set_side b side (with_quantity p n (side_levels b side)))) side p
  = n.
Proof.
  intros Hside. unfold current_quantity.
  rewrite _update_top_of_book_side.
  destruct (set_side_levels b side
              (with_quantity p n (side_levels b side)) Hside) as (-> & _).
  rewrite with_quantity_lookup, decide_True by done.
  by case_decide.
Qed.

Lemma set_side_twice b side m m' :
  side = "yes" ∨ side = "no" →
  _update_top_of_book (set_side (_update_top_of_book (set_side b side m)) side m')
  = _update_top_of_book (set_side b side m').
Proof. intros [-> | ->]; reflexivity. Qed.

Lemma _update_side_compose b b1 side p d1 d2 :
  _update_side b side p d1 = Ok b1 →
  _update_side b1 side p d2 = _update_side b side p (d1 + d2).
Proof.
  intros H1. apply _update_side_Ok in H1 as (Hside & Hnew & ->).
  rewrite !(_update_side_valid _ _ _ _ Hside). cbv zeta.
  rewrite (current_quantity_after _ _ _ _ Hside).
  rewrite Z.add_assoc. case_bool_decide; [done|].
  rewrite _update_top_of_book_side.
  destruct (set_side_levels b side
              (with_quantity p (current_quantity b side p + d1)
                 (side_levels b side)) Hside) as (-> & _).
  by rewrite with_quantity_twice, set_side_twice.
Qed.

(** X4. Two deltas at the same side and price act as their sum: once the
    first has been applied, applying the second gives exactly what applying
    the sum to the original book gives, the same book or the same
    [NegativeQuantity]. *)
Theorem deltas_add_up (b b1 : OrderBook) (side : string) (p d1 d2 : Z) :
  _update_side b side p d1 = Ok b1 →
  _update_side b1 side p d2 = _update_side b side p (d1 + d2).
Proof. apply _update_side_compose. Qed.

Lemma deltas_add_up_witness :
  _update_side
    (_update_top_of_book (set_yes book_X {[ 40 := 15 ]})) "yes" 40 (-20)
  = _update_side book_X "yes" 40 (5 + -20).
Proof.
  apply (deltas_add_up book_X _ "yes" 40 5 (-20)). vm_compute. reflexivity.
Defined.

Lemma with_quantity_current b side p :
  all_positive (side_levels b side) →
  with_quantity p (current_quantity b side p) (side_levels b side)
  = side_levels b side.
Proof.
  intros Hpos. unfold current_quantity, with_quantity.
  destruct (side_levels b side !! p) as [q|] eqn:Hq; cbn [from_option id];
    case_bool_decide as Hz.
  - apply Hpos in Hq. lia.
  - by apply insert_id.
  - by apply delete_id.
  - done.
Qed.

Lemma levels_positive_side b side :
  levels_positive b → all_positive (side_levels b side).
Proof. intros [??]. unfold side_levels. by case_bool_decide. Qed.

Lemma _update_side_zero b side p :
  reachable b → side = "yes" ∨ side = "no" →
  _update_side b side p 0 = Ok b.
Proof.
  intros Hreach Hside. apply reachable_invariant in Hreach as [Hcur Hpos].
  rewrite (_update_side_valid _ _ _ _ Hside). cbv zeta.
  rewrite Z.add_0_r.
  assert (0 ≤ current_quantity b side p) as Hc.
  { unfold current_quantity.
    destruct (side_levels b side !! p) as [q|] eqn:Hq; cbn [from_option id];
      [|done].
    apply (levels_positive_side _ side Hpos) in Hq. lia. }
  rewrite bool_decide_eq_false_2 by lia.
  rewrite with_quantity_current by by apply levels_positive_side.
  by rewrite set_side_id, _update_top_of_book_id.
Qed.

(** X5. On any state an [OrderBook] goes through, a delta followed by the
    opposite delta at the same side and price gives the book back, levels
    and best of book included; in particular a level that was created is
    removed again, not left at zero. *)
Theorem delta_then_opposite_restores (b b1 : OrderBook) (side : string)
    (p d : Z) :
  reachable b →
  _update_side b side p d = Ok b1 →
  _update_side b1 side p (- d) = Ok b.
Proof.
  intros Hreach H1. rewrite (_update_side_compose _ _ _ _ _ _ H1).
  rewrite Z.add_opp_diag_r.
  apply _update_side_Ok in H1 as (Hside & _).
  by apply _update_side_zero.
Qed.

Lemma delta_then_opposite_restores_witness :
  _update_side
    (_update_top_of_book (set_no book_X {[ 55 := 20; 60 := 7 ]})) "no" 60 (- 7)
  = Ok book_X.
Proof.
  apply (delta_then_opposite_restores book_X _ "no" 60 7 book_X_reachable).
  vm_compute. reflexivity.
Defined.

(** ** Snapshots with repeated prices *)

Lemma ingest_skips (l : list (Z * Z)) p : ∀ acc : gmap Z Z,
  (∀ q', (p, q') ∈ l → q' ≤ 0) →
  foldl ingest_step acc l !! p = acc !! p.
Proof.
  induction l as [|[p0 q0] l IH]; intros acc Hl; simpl; [done|].
  rewrite IH.
  - unfold ingest_step; simpl. case_bool_decide as Hq; [|done].
    apply lookup_insert_ne. intros <-. simpl in Hq.
    assert (q0 ≤ 0) by (apply Hl; rewrite elem_of_cons; by left). lia.
  - intros q' Hq'. apply Hl. rewrite elem_of_cons. by right.
Qed.

(** X6. In a snapshot the constructor keeps, for each price, the last pair
    with a positive quantity: a pair [(p, q)] with [q > 0] that no positive
    pair for [p] follows ends up as the level [p -> q], whatever precedes
    it; a later pair for [p] with a quantity of zero or less does not
    remove it. *)
Theorem snapshot_last_positive_wins (l1 l2 : list (Z * Z)) (p q : Z) :
  0 < q →
  (∀ q', (p, q') ∈ l2 → q' ≤ 0) →
  ingest (l1 ++ (p, q) :: l2) !! p = Some q.
Proof.
  intros Hq Hl2. unfold ingest. rewrite foldl_app. simpl.
  rewrite ingest_skips by done.
  unfold ingest_step at 1; simpl. rewrite bool_decide_eq_true_2 by done.
  apply lookup_insert_eq.
Qed.

Lemma snapshot_last_positive_wins_witness :
  ingest ([(40, 3)] ++ (40, 10) :: [(41, 2); (40, 0)]) !! 40 = Some 10.
Proof.
  apply (snapshot_last_positive_wins [(40, 3)] [(41, 2); (40, 0)] 40 10).
  - lia.
  - intros q' Hq'. rewrite !elem_of_cons, elem_of_nil in Hq'.
    destruct Hq' as [[= <-] | [[=] | []]]. lia.
Defined.

(** A level dictionary without non-positive quantities survives the trip
    through its items, in whatever order they are listed. *)
Lemma ingest_items (levels : gmap Z Z) (l : list (Z * Z)) :
  all_positive levels → l ≡ₚ map_to_list levels → ingest l = levels.
Proof.
  intros Hpos Hperm. apply map_eq. intros p.
  assert (NoDup l.*1) as Hnd.
  { rewrite Hperm. apply NoDup_fst_map_to_list. }
  destruct (levels !! p) as [q|] eqn:Hq.
  - assert ((p, q) ∈ l) as Hin.
    { rewrite Hperm. by apply elem_of_map_to_list. }
    apply list_elem_of_split in Hin as (l1 & l2 & ->).
    apply snapshot_last_positive_wins; [by eapply Hpos|].
    intros q' Hq'. exfalso.
    rewrite fmap_app, fmap_cons in Hnd. simpl in Hnd.
    apply NoDup_app in Hnd as (_ & _ & Hnd).
    apply NoDup_cons in Hnd as [Hp _]. apply Hp.
    apply list_elem_of_fmap. by exists (p, q').
  - destruct (ingest l !! p) as [q|] eqn:Hi; [|done].
    apply ingest_origin in Hi as [Hin _].
    rewrite Hperm in Hin. apply elem_of_map_to_list in Hin. congruence.
Qed.

(** ** Replication: what a consumer rebuilds *)

Lemma top_level_current_max levels best :
  best_is Z.le levels best → top_level py_max levels = best.
Proof.
  intros H. symmetry.
  apply (best_is_unique Z.le levels); [intros; lia | done | apply top_level_max].
Qed.

Lemma top_level_current_min levels best :
  best_is Z.ge levels best → top_level py_min levels = best.
Proof.
  intros H. symmetry.
  apply (best_is_unique Z.ge levels); [intros; lia | done | apply top_level_min].
Qed.

(** X7. The record of the state of a publishing book, read back by a
    consumer, gives a book that shows the same market: same ticker, same
    levels on both sides and same best of book, in whatever order the JSON
    text lists the levels.  The consumer's book has publishing disabled and
    no producer. *)
Theorem replica_shows_the_published_state (b : OrderBook)
    (yes_items no_items : list (Z * Z)) :
  reachable b →
  yes_items ≡ₚ map_to_list (wire_yes (state_wire b).2) →
  no_items ≡ₚ map_to_list (wire_no (state_wire b).2) →
  ∃ b',
    OrderBook_init
      (mkPayload (Some (wire_ticker (state_wire b).2)) yes_items no_items
         None None None) false = Ok b' ∧
    same_market b b' ∧
    should_publish b' = false ∧ producer b' = false ∧ reachable b'.
Proof.
  intros Hreach Hy Hn. simpl in Hy, Hn.
  pose proof (reachable_invariant b Hreach) as [[Hby Hbn] [Hpy Hpn]].
  eexists. split; [reflexivity|].
  split; [|split; [done|split; [done|]]].
  - unfold same_market; simpl.
    rewrite (ingest_items _ _ Hpy Hy), (ingest_items _ _ Hpn Hn).
    split; [done|]. split; [done|]. split; [done|].
    split; [by apply top_level_current_max | by apply top_level_current_min].
  - by apply (reach_init
                (mkPayload (Some (ticker b)) yes_items no_items None None None)
                false).
Qed.

Lemma replica_shows_the_published_state_witness :
  ∃ b',
    OrderBook_init
      (mkPayload (Some (wire_ticker (state_wire book_X).2))
         (map_to_list (wire_yes (state_wire book_X).2))
         (map_to_list (wire_no (state_wire book_X).2))
         None None None) false = Ok b' ∧
    same_market book_X b' ∧
    should_publish b' = false ∧ producer b' = false ∧ reachable b'.
Proof.
  apply (replica_shows_the_published_state book_X _ _ book_X_reachable);
    reflexivity.
Defined.

Lemma yields_length (msgs : list wire) :
  (yields msgs).2 = Done ∧ length (yields msgs).1 = length msgs.
Proof.
  induction msgs as [|w msgs [IHo IHl]]; simpl; [done|].
  destruct (yields msgs) as [bs o]. simpl in *. by rewrite IHl.
Qed.

(** X8. A book built with publishing disabled, as [from_kafka] builds
    them, never publishes: whatever deltas and publish calls it gets, and
    whether or not [initialize_producer] is called on it, the broker
    receives nothing, nothing is buffered, and no producer is created. *)
Theorem reader_book_never_publishes (b : OrderBook) (k : broker)
    (ops : list op) :
  should_publish b = false →
  (run b k ops).2 = k ∧
  pending_messages (run b k ops).1 = pending_messages b ∧
  producer (run b k ops).1 = producer b ∧
  should_publish (run b k ops).1 = false ∧
  initialize_producer (run b k ops).1 (run b k ops).2 = run b k ops.
Proof.
  unfold run. revert b k.
  induction ops as [|o ops IH]; intros b k Hs; simpl.
  - repeat split; try done. unfold initialize_producer. by rewrite Hs.
  - assert (∃ b1, step (b, k) o = (b1, k) ∧ should_publish b1 = false ∧
                  pending_messages b1 = pending_messages b ∧
                  producer b1 = producer b) as (b1 & -> & Hs1 & Hp1 & Hpr1).
    { destruct o as [msg | r]; simpl.
      - destruct (update b k msg) as [[b0 k0] o] eqn:Hupd. simpl.
        apply update_cases in Hupd
          as [(e & -> & -> & ->)
             | (-> & side & p & d & b1 & _ & _ & _ & H1 & Hpub)];
          [by eexists|].
        apply _update_side_frame in H1 as (_ & Hpr & Hsp & Hpe).
        revert Hpub. unfold _publish_to_kafka. rewrite Hsp, Hs. simpl.
        intros [= <- <-]. eexists. split; [reflexivity|].
        repeat split; congruence.
      - unfold _publish_to_kafka. rewrite Hs. simpl. by eexists. }
    destruct (IH b1 k Hs1) as (? & ? & ? & ? & ?).
    repeat split; congruence.
Qed.

Lemma reader_book_never_publishes_witness :
  (run book_X_reader [] two_deltas).2 = [] ∧
  pending_messages (run book_X_reader [] two_deltas).1
  = pending_messages book_X_reader ∧
  producer (run book_X_reader [] two_deltas).1 = producer book_X_reader ∧
  should_publish (run book_X_reader [] two_deltas).1 = false ∧
  initialize_producer (run book_X_reader [] two_deltas).1
    (run book_X_reader [] two_deltas).2 = run book_X_reader [] two_deltas.
Proof.
  apply (reader_book_never_publishes book_X_reader [] two_deltas). reflexivity.
Defined.

Lemma initialize_producer_noop b k :
  should_publish b = false ∨ producer b = true →
  initialize_producer b k = (b, k).
Proof.
  unfold initialize_producer. intros [-> | ->]; [done|].
  by rewrite andb_false_r.
Qed.

(** X9. [initialize_producer] flushes once: a second call neither creates
    another producer nor sends anything again. *)
Theorem initialize_producer_once (b : OrderBook) (k : broker) :
  initialize_producer (initialize_producer b k).1 (initialize_producer b k).2
  = initialize_producer b k.
Proof.
  destruct (should_publish b) eqn:Hs, (producer b) eqn:Hp.
  - rewrite !(initialize_producer_noop b k) by auto.
    simpl. apply initialize_producer_noop. auto.
  - rewrite (initialize_producer_flushes b k) by done.
    simpl. apply initialize_producer_noop. auto.
  - rewrite !(initialize_producer_noop b k) by auto.
    simpl. apply initialize_producer_noop. auto.
  - rewrite !(initialize_producer_noop b k) by auto.
    simpl. apply initialize_producer_noop. auto.
Qed.

(** X10. Once the producer is attached, every applied delta sends exactly
    one message, to the topic [orderbook.<ticker>], and the message is the
    state the book has right after that delta; a delta that raises sends
    nothing. *)
Theorem attached_book_publishes_each_delta (b : OrderBook) (k : broker)
    (msg : payload) :
  should_publish b = true → producer b = true →
  let r := update b k msg in
  match r.2 with
  | Done =>
      r.1.2 = k ++ [state_wire r.1.1] ∧
      (state_wire r.1.1).1 = "orderbook." +:+ ticker b
  | Raised _ => r.1 = (b, k)
  end.
Proof.
  intros Hs Hp r. subst r.
  destruct (update b k msg) as [[b' k'] o] eqn:Hupd. simpl.
  apply update_cases in Hupd
    as [(e & -> & -> & ->) | (-> & side & p & d & b1 & _ & _ & _ & H1 & Hpub)];
    [done|].
  apply _update_side_frame in H1 as (Ht & Hp1 & Hs1 & _).
  rewrite _publish_to_kafka_sends in Hpub by congruence.
  injection Hpub as <- <-. unfold state_wire, topic. simpl.
  split; [reflexivity | by rewrite Ht].
Qed.

Lemma attached_book_publishes_each_delta_witness :
  let r := update (set_producer book_X true) []
             (delta_payload "X" "yes" 40 5) in
  match r.2 with
  | Done =>
      r.1.2 = [] ++ [state_wire r.1.1] ∧
      (state_wire r.1.1).1 = "orderbook." +:+ ticker (set_producer book_X true)
  | Raised _ => r.1 = (set_producer book_X true, [])
  end.
Proof.
  apply (attached_book_publishes_each_delta (set_producer book_X true) []);
    reflexivity.
Defined.

(** ** Best of book and consolidated book *)

Lemma top_level_price (pick : list Z → option Z) (levels : gmap Z Z) :
  (∀ k, pick (keys levels) = Some k → k ∈ keys levels) →
  (pick (keys levels) = None → keys levels = []) →
  price <$> top_level pick levels = pick (keys levels).
Proof.
  intros Hin Hnone. unfold top_level, is_empty. case_bool_decide as He.
  - subst. unfold keys. rewrite map_to_list_empty. simpl.
    destruct (pick []) as [k|] eqn:Hk; [|done].
    specialize (Hin k). unfold keys in Hin. rewrite map_to_list_empty in Hin.
    apply Hin in Hk. by apply elem_of_nil in Hk.
  - destruct (pick (keys levels)) as [k|] eqn:Hk; simpl; [|done].
    specialize (Hin k eq_refl).
    apply (elem_of_keys levels) in Hin as [q ->]. done.
Qed.

Lemma py_max_price levels :
  price <$> top_level py_max levels = py_max (keys levels).
Proof.
  apply top_level_price.
  - intros k Hk.
    by apply (py_pick_spec Z.max Z.le) in Hk as [? _]; [|intros; lia..].
  - unfold py_max, py_pick. by destruct (keys levels).
Qed.

Lemma complement_empty_iff (m : gmap Z Z) : complement m = ∅ ↔ m = ∅.
Proof.
  split; intros H.
  - apply map_eq. intros p. rewrite <- complement_lookup, H.
    by rewrite !lookup_empty.
  - subst. done.
Qed.

Lemma complement_best (m : gmap Z Z) (best : option PriceLevel) :
  best_is Z.ge m best →
  best_is Z.le (complement m)
    ((λ pl, mkPriceLevel (100 - price pl) (quantity pl)) <$> best).
Proof.
  intros [Hnone Hsome]. split.
  - rewrite complement_empty_iff, <- Hnone. by destruct best.
  - intros pl Hpl. destruct best as [[p q]|]; [|done].
    simpl in Hpl. injection Hpl as <-. simpl.
    destruct (Hsome _ eq_refl) as [Hl Hub]. simpl in *.
    split; [by rewrite complement_lookup|].
    intros p' q' Hp'. rewrite complement_lookup' in Hp'.
    apply Hub in Hp'. lia.
Qed.

(** X11. On every state an [OrderBook] goes through, the bid reported by
    [get_bbo] is the highest bid of the consolidated yes book, and the ask
    it reports (the lowest no price) shows up in that book's offers under
    [100 - price], where it is the highest-priced offer. *)
Theorem bbo_in_consolidated_book (b : OrderBook) :
  reachable b →
  price <$> (get_bbo b).1 = py_max (keys (bids (get_book b "yes"))) ∧
  (λ pl, 100 - price pl) <$> (get_bbo b).2
  = py_max (keys (offers (get_book b "yes"))).
Proof.
  intros Hreach. apply reachable_invariant in Hreach as [[Hy Hn] _].
  unfold get_bbo, get_book. simpl. split.
  - rewrite <- py_max_price. by rewrite (top_level_current_max _ _ Hy).
  - rewrite <- py_max_price.
    rewrite (top_level_current_max _ _ (complement_best _ _ Hn)).
    by destruct (best_no b).
Qed.

Lemma bbo_in_consolidated_book_witness :
  price <$> (get_bbo book_X).1 = py_max (keys (bids (get_book book_X "yes"))) ∧
  (λ pl, 100 - price pl) <$> (get_bbo book_X).2
  = py_max (keys (offers (get_book book_X "yes"))).
Proof. exact (bbo_in_consolidated_book book_X book_X_reachable). Defined.

(** ** The manager, message by message *)

Ltac in_channels :=
  unfold channels; rewrite !elem_of_union, !elem_of_singleton;
  intros [[?|?]|?]; congruence.

Lemma process_message_cases mgr k m :
  (truthy (m_type m) = false ∧
   process_message mgr k m = (mgr, k, Raised MalformedMessage)) ∨
  (truthy (m_type m) = true ∧
   (ticker_of m = None ∨ channel_of m ∉ channels) ∧
   process_message mgr k m = (mgr, k, Done)) ∨
  (∃ t, ticker_of m = Some t ∧ channel_of m = "trade" ∧
        process_message mgr k m = then_check (mgr, k, Done) "trade" (m_seq m)) ∨
  (∃ t, ticker_of m = Some t ∧ channel_of m = "orderbook_snapshot" ∧
        process_message mgr k m
        = then_check (_process_orderbook_snapshot mgr k t (content_of m))
            "orderbook_snapshot" (m_seq m)) ∨
  (∃ t, ticker_of m = Some t ∧ channel_of m = "orderbook_delta" ∧
        process_message mgr k m
        = then_check (_process_orderbook_delta mgr k t (content_of m))
            "orderbook_delta" (m_seq m)).
Proof.
  unfold process_message, ticker_of, content_of, channel_of.
  destruct (truthy (m_type m)) eqn:Hty; simpl; [|by left].
  right.
  destruct (msg_market_ticker (default empty_payload (m_msg m))) as [t|].
  2: { left. split; [done|]. split; [by left|]. by case_bool_decide. }
  generalize (default "" (m_type m)). intros ch.
  destruct (decide (ch = "subscribed")) as [-> | Hsub].
  { left. split; [done|]. split; [right; in_channels | done]. }
  rewrite (bool_decide_eq_false_2 (ch = "subscribed")) by done.
  destruct (decide (ch = "ticker")) as [-> | Htic].
  { left. split; [done|]. split; [right; in_channels | done]. }
  rewrite (bool_decide_eq_false_2 (ch = "ticker")) by done.
  destruct (decide (ch = "trade")) as [-> | Htra].
  { right. left. by exists t. }
  rewrite (bool_decide_eq_false_2 (ch = "trade")) by done.
  destruct (decide (ch = "orderbook_snapshot")) as [-> | Hsna].
  { right. right. left. by exists t. }
  rewrite (bool_decide_eq_false_2 (ch = "orderbook_snapshot")) by done.
  destruct (decide (ch = "orderbook_delta")) as [-> | Hdel].
  { right. right. right. by exists t. }
  rewrite (bool_decide_eq_false_2 (ch = "orderbook_delta")) by done.
  left. split; [done|]. split; [right; in_channels | done].
Qed.

Lemma then_check_Done mgr k channel seq_no :
  then_check (mgr, k, Done) channel seq_no
  = ((_check_sequence mgr channel seq_no).1, k,
     (_check_sequence mgr channel seq_no).2).
Proof. simpl. by destruct (_check_sequence mgr channel seq_no). Qed.

Lemma _check_sequence_cases mgr channel seq_no :
  (_check_sequence mgr channel seq_no = (mgr, Raised MissingSequence) ∧
   seq_no = None) ∨
  (_check_sequence mgr channel seq_no = (mgr, Raised KeyError) ∧
   sequence_numbers mgr !! channel = None) ∨
  (_check_sequence mgr channel seq_no = (mgr, Raised SequenceGap) ∧
   ∃ s last, seq_no = Some s ∧ sequence_numbers mgr !! channel = Some last ∧
             last ≠ -1 ∧ s ≠ last + 1) ∨
  (∃ s, seq_no = Some s ∧ is_Some (sequence_numbers mgr !! channel) ∧
        _check_sequence mgr channel seq_no
        = (set_sequence_numbers mgr
             (<[channel := s]> (sequence_numbers mgr)), Done)).
Proof.
  unfold _check_sequence. destruct seq_no as [s|]; [|by left].
  destruct (sequence_numbers mgr !! channel) as [last|] eqn:Hl;
    [|by right; left].
  repeat case_bool_decide; simpl.
  - right. right. right. exists s. eauto.
  - right. right. right. exists s. eauto.
  - right. right. right. exists s. eauto.
  - right. right. left. split; [done|]. by exists s, last.
Qed.

Lemma _process_orderbook_snapshot_spec mgr k t content :
  msg_market_ticker content = Some t →
  ∃ b,
    _process_orderbook_snapshot mgr k t content
    = (set_orderbooks mgr (<[t := b]> (orderbooks mgr)), k, Done) ∧
    registered_ok t b ∧
    yes_levels b = ingest (msg_yes content) ∧
    no_levels b = ingest (msg_no content).
Proof.
  intros Ht. unfold _process_orderbook_snapshot.
  destruct (OrderBook_init content true) as [b0|e] eqn:Hinit.
  2: { unfold OrderBook_init in Hinit. by rewrite Ht in Hinit. }
  pose proof (OrderBook_init_levels _ _ _ Hinit)
    as (Hy & Hn & Ht' & Hp & Hs & Hpend).
  rewrite initialize_producer_flushes by done.
  rewrite Hpend. simpl. rewrite app_nil_r.
  eexists. split; [reflexivity|]. split; [|done].
  repeat split; simpl; try done.
  - congruence.
  - apply (reach_initialize_producer b0 k _ k); [by eapply reach_init|].
    rewrite initialize_producer_flushes by done.
    by rewrite Hpend, app_nil_r.
Qed.

Lemma update_keeps_registered t b k msg :
  registered_ok t b →
  registered_ok t (update b k msg).1.1.
Proof.
  intros (Ht & Hs & Hp & Hpend & Hreach).
  destruct (update b k msg) as [[b' k'] o] eqn:Hupd. simpl.
  assert (reachable b') by by eapply reach_update.
  apply update_cases in Hupd
    as [(e & -> & -> & ->) | (-> & side & p & d & b1 & _ & _ & _ & H1 & Hpub)];
    [done|].
  apply _update_side_frame in H1 as (Ht1 & Hp1 & Hs1 & Hpend1).
  rewrite _publish_to_kafka_sends in Hpub by congruence.
  injection Hpub as <- <-. repeat split; congruence.
Qed.

Lemma set_orderbooks_id mgr t b :
  orderbooks mgr !! t = Some b →
  set_orderbooks mgr (<[t := b]> (orderbooks mgr)) = mgr.
Proof.
  intros H. unfold set_orderbooks. rewrite insert_id by done. by destruct mgr.
Qed.

Lemma _check_sequence_ok mgr channel seq_no :
  manager_ok mgr → manager_ok (_check_sequence mgr channel seq_no).1.
Proof.
  intros [Hbooks Hdom].
  destruct (_check_sequence_cases mgr channel seq_no)
    as [[-> _] | [[-> _] | [[-> _] | (s & _ & Hsome & ->)]]]; try done.
  split; [done|]. simpl. rewrite dom_insert_L.
  apply elem_of_dom in Hsome.
  rewrite subseteq_union_1_L; [done | by apply singleton_subseteq_l].
Qed.

Lemma then_check_ok r channel seq_no :
  manager_ok r.1.1 → manager_ok (then_check r channel seq_no).1.1.
Proof.
  destruct r as [[mgr k] [|e]]; simpl; [|done].
  intros H. apply (_check_sequence_ok _ channel seq_no) in H.
  by destruct (_check_sequence mgr channel seq_no).
Qed.

Lemma process_message_ok mgr k m :
  manager_ok mgr → manager_ok (process_message mgr k m).1.1.
Proof.
  intros Hok.
  destruct (process_message_cases mgr k m)
    as [[_ ->] | [(_ & _ & ->) | [(t & _ & _ & ->) | [(t & Ht & _ & ->)
       | (t & Ht & _ & ->)]]]]; try done.
  - by apply then_check_ok.
  - apply then_check_ok.
    destruct (_process_orderbook_snapshot_spec mgr k t _ Ht)
      as (b & -> & Hreg & _).
    destruct Hok as [Hbooks Hdom]. split; [|done]. simpl.
    intros t' b'. rewrite lookup_insert. case_decide; [|apply Hbooks].
    intros [= <-]. by subst.
  - apply then_check_ok. unfold _process_orderbook_delta.
    destruct (orderbooks mgr !! t) as [b|] eqn:Hb; [|done].
    pose proof (update_keeps_registered t b k (content_of m)
                  (proj1 Hok t b Hb)) as Hreg.
    destruct (update b k (content_of m)) as [[b' k'] o]. simpl in *.
    destruct Hok as [Hbooks Hdom]. split; [|done]. simpl.
    intros t' b''. rewrite lookup_insert. case_decide; [|apply Hbooks].
    intros [= <-]. by subst.
Qed.

Lemma OrderbookManager_init_ok : manager_ok OrderbookManager_init.
Proof.
  split.
  - intros t b. simpl. by rewrite lookup_empty.
  - simpl. rewrite !dom_insert_L, dom_empty_L. unfold channels. set_solver.
Qed.

Lemma manager_reachable_ok mgr k : manager_reachable mgr k → manager_ok mgr.
Proof.
  induction 1 as [k | mgr k m mgr' k' o _ IH Hstep].
  - apply OrderbookManager_init_ok.
  - apply (process_message_ok mgr k m) in IH. by rewrite Hstep in IH.
Qed.

(** X12. In every state the manager goes through, each registered book is
    filed under its own ticker, has publishing enabled, its producer
    attached and an empty buffer, and is in a state an [OrderBook] can
    reach (so its best of book is current and its levels are positive);
    the sequence table has exactly the three channels it started with. *)
Theorem manager_books_well_formed (mgr : OrderbookManager) (k : broker) :
  manager_reachable mgr k → manager_ok mgr.
Proof. apply manager_reachable_ok. Qed.

Lemma manager_step_reachable mgr k m :
  manager_reachable mgr k →
  manager_reachable (process_message mgr k m).1.1 (process_message mgr k m).1.2.
Proof.
  intros H. destruct (process_message mgr k m) as [[mgr' k'] o] eqn:Hstep.
  exact (manager_step mgr k m mgr' k' o H Hstep).
Defined.

Lemma after_first_delta_reachable :
  manager_reachable after_first_delta.1.1 after_first_delta.1.2.
Proof.
  apply manager_step_reachable, manager_step_reachable, manager_fresh.
Defined.

Lemma manager_books_well_formed_witness :
  manager_ok after_first_delta.1.1.
Proof.
  exact (manager_books_well_formed _ _ after_first_delta_reachable).
Defined.

Lemma update_errors b k msg e :
  (update b k msg).2 = Raised e →
  e = MalformedMessage ∨ e = InvalidSide ∨ e = NegativeQuantity.
Proof.
  unfold update.
  destruct (msg_side msg) as [side|], (msg_price msg) as [p|],
    (msg_delta msg) as [d|]; simpl; try (intros [= <-]; auto; fail).
  case_bool_decide; simpl; [intros [= <-]; auto|].
  destruct (_update_side b side p d) as [b1|e'] eqn:Hside.
  - by destruct (_publish_to_kafka b1 k None).
  - simpl. intros [= <-]. revert Hside. unfold _update_side.
    repeat (case_bool_decide; simpl); intros [= <-]; auto.
Qed.

Lemma _process_orderbook_delta_cases mgr k t content :
  (orderbooks mgr !! t = None ∧
   _process_orderbook_delta mgr k t content = (mgr, k, Raised UnknownMarket)) ∨
  (∃ b, orderbooks mgr !! t = Some b ∧
        _process_orderbook_delta mgr k t content
        = (set_orderbooks mgr
             (<[t := (update b k content).1.1]> (orderbooks mgr)),
           (update b k content).1.2, (update b k content).2)).
Proof.
  unfold _process_orderbook_delta.
  destruct (orderbooks mgr !! t) as [b|]; [right | by left].
  exists b. split; [done|]. by destruct (update b k content) as [[??]?].
Qed.

(** A delta that [update] rejects leaves the manager as it was. *)
Lemma _process_orderbook_delta_Raised mgr k t content mgr' k' e :
  _process_orderbook_delta mgr k t content = (mgr', k', Raised e) →
  mgr' = mgr ∧ k' = k ∧
  (e = UnknownMarket ∨ e = MalformedMessage ∨ e = InvalidSide ∨
   e = NegativeQuantity).
Proof.
  destruct (_process_orderbook_delta_cases mgr k t content)
    as [[_ ->] | (b & Hb & ->)].
  - intros [= <- <- <-]. auto.
  - destruct (update b k content) as [[b' k''] o] eqn:Hupd. simpl.
    intros [= <- <- ->].
    pose proof (update_errors b k content e) as He.
    rewrite Hupd in He. specialize (He eq_refl).
    apply update_cases in Hupd as [(e' & _ & -> & ->) | [? _]]; [|done].
    rewrite set_orderbooks_id by done. tauto.
Qed.

Lemma then_check_frame r channel seq_no :
  orderbooks (then_check r channel seq_no).1.1 = orderbooks r.1.1 ∧
  (then_check r channel seq_no).1.2 = r.1.2.
Proof.
  destruct r as [[mgr k] [|e]]; simpl; [|done].
  pose proof (_check_sequence_orderbooks mgr channel seq_no).
  by destruct (_check_sequence mgr channel seq_no).
Qed.

Lemma then_check_Raised r channel seq_no e :
  (then_check r channel seq_no).2 = Raised e →
  (r.2 = Raised e ∧ then_check r channel seq_no = r) ∨
  (r.2 = Done ∧ (then_check r channel seq_no).1 = r.1 ∧
   (e = MissingSequence ∨ e = SequenceGap ∨
    (e = KeyError ∧ sequence_numbers r.1.1 !! channel = None))).
Proof.
  destruct r as [[mgr k] [|e']]; simpl.
  - destruct (_check_sequence_cases mgr channel seq_no)
      as [[-> _] | [[-> ?] | [[-> _] | (s & _ & _ & ->)]]]; simpl;
      intros [= <-]; right; naive_solver.
  - intros [= <-]. by left.
Qed.

(** X13. From the fresh manager on, [process_message] never fails on a
    missing key of the sequence table: whatever the feed sends, the outcome
    is a normal return or one of [MalformedMessage], [UnknownMarket],
    [InvalidSide], [NegativeQuantity], [MissingSequence], [SequenceGap]. *)
Theorem process_message_error_kinds (mgr : OrderbookManager) (k : broker)
    (m : message) :
  manager_reachable mgr k →
  (process_message mgr k m).2 ≠ Raised KeyError.
Proof.
  intros Hreach Hkey.
  apply manager_reachable_ok in Hreach as [_ Hdom].
  assert (∀ r channel,
            channel ∈ channels →
            sequence_numbers r.1.1 = sequence_numbers mgr →
            r.2 ≠ Raised KeyError →
            (then_check r channel (m_seq m)).2 ≠ Raised KeyError) as Hcheck.
  { intros r channel Hch Hseq Hr Hk.
    apply then_check_Raised in Hk as [[? _] | (_ & _ & [? | [? | [_ Hnone]]])];
      try done.
    rewrite Hseq in Hnone. apply not_elem_of_dom in Hnone.
    by rewrite Hdom in Hnone. }
  destruct (process_message_cases mgr k m)
    as [[_ Heq] | [(_ & _ & Heq) | [(t & _ & _ & Heq) | [(t & Ht & _ & Heq)
       | (t & Ht & _ & Heq)]]]]; rewrite Heq in Hkey; try done.
  - revert Hkey. apply Hcheck; [|done..]. unfold channels. set_solver.
  - revert Hkey. apply Hcheck.
    + unfold channels. set_solver.
    + apply _process_orderbook_snapshot_sequence.
    + destruct (_process_orderbook_snapshot_spec mgr k t _ Ht)
        as (b & -> & _). done.
  - revert Hkey. apply Hcheck.
    + unfold channels. set_solver.
    + apply _process_orderbook_delta_sequence.
    + destruct (_process_orderbook_delta mgr k t (content_of m))
        as [[mgr1 k1] [|e]] eqn:Hd; [done|].
      apply _process_orderbook_delta_Raised in Hd as (_ & _ & He).
      simpl. intros [= ->]. destruct He as [?|[?|[?|?]]]; discriminate.
Qed.

Lemma process_message_error_kinds_witness :
  (process_message after_first_delta.1.1 after_first_delta.1.2 late_delta).2
  ≠ Raised KeyError.
Proof.
  exact (process_message_error_kinds _ _ late_delta
           after_first_delta_reachable).
Defined.

(** X14. An error raised while the payload is handled means that nothing
    happened: when [process_message] raises [MalformedMessage],
    [UnknownMarket], [InvalidSide] or [NegativeQuantity], the books, the
    recorded sequence numbers and the broker are exactly what they were
    (unlike [MissingSequence] and [SequenceGap], which come after the
    change). *)
Theorem payload_errors_change_nothing (mgr : OrderbookManager) (k : broker)
    (m : message) (mgr' : OrderbookManager) (k' : broker) (e : error) :
  process_message mgr k m = (mgr', k', Raised e) →
  e = MalformedMessage ∨ e = UnknownMarket ∨ e = InvalidSide ∨
  e = NegativeQuantity →
  mgr' = mgr ∧ k' = k.
Proof.
  intros Hstep He.
  assert (∀ r channel,
            then_check r channel (m_seq m) = (mgr', k', Raised e) →
            r = (mgr', k', Raised e)) as Hcheck.
  { intros r channel Hr.
    pose proof (then_check_Raised r channel (m_seq m) e) as Hc.
    rewrite Hr in Hc.
    destruct (Hc eq_refl) as [[_ <-] | (_ & _ & Hseq)]; [done|].
    destruct He as [-> | [-> | [-> | ->]]];
      destruct Hseq as [? | [? | [? _]]]; discriminate. }
  destruct (process_message_cases mgr k m)
    as [[_ Heq] | [(_ & _ & Heq) | [(t & _ & _ & Heq) | [(t & Ht & _ & Heq)
       | (t & Ht & _ & Heq)]]]]; rewrite Heq in Hstep.
  - by injection Hstep as <- <-.
  - done.
  - by apply Hcheck in Hstep.
  - apply Hcheck in Hstep.
    destruct (_process_orderbook_snapshot_spec mgr k t _ Ht) as (b & Hs & _).
    by rewrite Hs in Hstep.
  - apply Hcheck in Hstep.
    by apply _process_orderbook_delta_Raised in Hstep as (-> & -> & _).
Qed.

Lemma payload_errors_change_nothing_witness :
  after_first_delta.1.1 = after_first_delta.1.1 ∧
  after_first_delta.1.2 = after_first_delta.1.2.
Proof.
  apply (payload_errors_change_nothing after_first_delta.1.1
           after_first_delta.1.2
           (feed "orderbook_delta" 3 (delta_payload "X" "yes" 40 (-16)))
           _ _ NegativeQuantity).
  - vm_compute. reflexivity.
  - auto.
Defined.

Lemma channel_of_truthy m channel :
  channel_of m = channel → channel ≠ "" → truthy (m_type m) = true.
Proof.
  unfold channel_of, truthy. destruct (m_type m) as [c|]; simpl.
  - intros -> Hne. by rewrite bool_decide_eq_false_2.
  - intros <-. done.
Qed.

(** X15. A message only ever touches the book of its own market: the book
    registered for any other ticker is the same before and after, whatever
    the outcome.  A message that is neither an 'orderbook_snapshot' nor an
    'orderbook_delta' (a trade, a subscription confirmation, a ticker
    update, an unknown type) changes no book at all and sends nothing. *)
Theorem other_markets_untouched (mgr : OrderbookManager) (k : broker)
    (m : message) :
  (∀ t', ticker_of m ≠ Some t' →
         orderbooks (process_message mgr k m).1.1 !! t'
         = orderbooks mgr !! t') ∧
  (channel_of m ≠ "orderbook_snapshot" → channel_of m ≠ "orderbook_delta" →
   orderbooks (process_message mgr k m).1.1 = orderbooks mgr ∧
   (process_message mgr k m).1.2 = k).
Proof.
  destruct (process_message_cases mgr k m)
    as [[_ ->] | [(_ & _ & ->) | [(t & _ & _ & ->) | [(t & Ht & Hch & ->)
       | (t & Ht & Hch & ->)]]]]; try done.
  - destruct (then_check_frame (mgr, k, Done) "trade" (m_seq m)) as [-> ->].
    done.
  - destruct (then_check_frame
                (_process_orderbook_snapshot mgr k t (content_of m))
                "orderbook_snapshot" (m_seq m)) as [-> _].
    split; [|done]. intros t' Ht'.
    destruct (_process_orderbook_snapshot_spec mgr k t _ Ht) as (b & -> & _).
    simpl. apply lookup_insert_ne. congruence.
  - destruct (then_check_frame
                (_process_orderbook_delta mgr k t (content_of m))
                "orderbook_delta" (m_seq m)) as [-> _].
    split; [|done]. intros t' Ht'.
    destruct (_process_orderbook_delta_cases mgr k t (content_of m))
      as [[_ ->] | (b & _ & ->)]; [done|].
    simpl. apply lookup_insert_ne. congruence.
Qed.

(** X16. An 'orderbook_snapshot' message with a ticker replaces the book
    of that market whatever was registered before: the new book has the
    levels of the snapshot (pairs with a positive quantity), its producer
    attached and nothing buffered.  Handling a snapshot sends nothing to
    the broker: consumers of the topic learn of the new state only with
    the next delta. *)
Theorem snapshot_replaces_book (mgr : OrderbookManager) (k : broker)
    (m : message) (t : string) :
  channel_of m = "orderbook_snapshot" →
  ticker_of m = Some t →
  (process_message mgr k m).1.2 = k ∧
  ∃ b,
    orderbooks (process_message mgr k m).1.1 !! t = Some b ∧
    yes_levels b = ingest (msg_yes (content_of m)) ∧
    no_levels b = ingest (msg_no (content_of m)) ∧
    registered_ok t b.
Proof.
  intros Hch Ht.
  destruct (process_message_cases mgr k m)
    as [[Hty _] | [(_ & [Hnone | Hnot] & _) | [(t' & _ & Hch' & _)
       | [(t' & Ht' & _ & ->) | (t' & _ & Hch' & _)]]]].
  - by rewrite (channel_of_truthy m _ Hch) in Hty.
  - congruence.
  - exfalso. apply Hnot. rewrite Hch. unfold channels. set_solver.
  - congruence.
  - assert (t' = t) as -> by congruence.
    destruct (then_check_frame
                (_process_orderbook_snapshot mgr k t (content_of m))
                "orderbook_snapshot" (m_seq m)) as [Hbooks ->].
    rewrite Hbooks.
    destruct (_process_orderbook_snapshot_spec mgr k t _ Ht')
      as (b & -> & Hreg & Hy & Hn).
    split; [done|]. exists b. simpl. by rewrite lookup_insert_eq.
  - congruence.
Qed.

Lemma snapshot_replaces_book_witness :
  (process_message after_first_delta.1.1 after_first_delta.1.2
     (feed "orderbook_snapshot" 9 snapshot_X)).1.2 = after_first_delta.1.2 ∧
  ∃ b,
    orderbooks
      (process_message after_first_delta.1.1 after_first_delta.1.2
         (feed "orderbook_snapshot" 9 snapshot_X)).1.1 !! "X" = Some b ∧
    yes_levels b
    = ingest (msg_yes (content_of (feed "orderbook_snapshot" 9 snapshot_X))) ∧
    no_levels b
    = ingest (msg_no (content_of (feed "orderbook_snapshot" 9 snapshot_X))) ∧
    registered_ok "X" b.
Proof.
  apply (snapshot_replaces_book after_first_delta.1.1 after_first_delta.1.2
           (feed "orderbook_snapshot" 9 snapshot_X) "X"); reflexivity.
Defined.

(** ** From the feed to the consumers *)

Lemma update_attached_Done b k msg b' k' :
  should_publish b = true → producer b = true →
  update b k msg = (b', k', Done) →
  k' = k ++ [state_wire b'].
Proof.
  intros Hs Hp Hupd.
  apply update_cases in Hupd
    as [(e & ? & _) | (_ & side & p & d & b1 & _ & _ & _ & H1 & Hpub)];
    [done|].
  apply _update_side_frame in H1 as (_ & Hp1 & Hs1 & _).
  rewrite _publish_to_kafka_sends in Hpub by congruence.
  by injection Hpub as <- <-.
Qed.

Lemma consumed_snoc t k topic_name w :
  topic_name = "orderbook." +:+ t →
  consumed t (k ++ [(topic_name, w)]) = consumed t k ++ [w].
Proof.
  intros ->. unfold consumed, broker. rewrite filter_app, fmap_app. f_equal.
  rewrite filter_cons_True by done. done.
Qed.

Lemma yields_snoc (msgs : list wire) (w : wire) (b : OrderBook) :
  OrderBook_init (wire_payload w) false = Ok b →
  yields (msgs ++ [w]) = ((yields msgs).1 ++ [b], Done).
Proof.
  intros Hb. induction msgs as [|w' msgs IH]; cbn [yields app].
  - by rewrite Hb.
  - destruct (OrderBook_init (wire_payload w') false) as [b0|e] eqn:H0.
    + rewrite IH. by destruct (yields msgs).
    + unfold OrderBook_init in H0. done.
Qed.

(** The book a consumer builds from the record of a book's state. *)
Lemma state_wire_replica b :
  reachable b →
  ∃ replica,
    OrderBook_init (wire_payload (state_wire b).2) false = Ok replica ∧
    same_market b replica.
Proof.
  intros Hreach.
  pose proof (reachable_invariant b Hreach) as [[Hby Hbn] [Hpy Hpn]].
  eexists. split; [reflexivity|].
  unfold same_market; simpl.
  rewrite (ingest_items _ _ Hpy (reflexivity _)),
    (ingest_items _ _ Hpn (reflexivity _)).
  split; [done|]. split; [done|]. split; [done|].
  split; [by apply top_level_current_max | by apply top_level_current_min].
Qed.

(** X17. Every delta the manager applies reaches the consumers of that
    market: when an 'orderbook_delta' message returns normally, or raises
    only at the sequence check ([SequenceGap], [MissingSequence]), exactly
    one record has been added to the broker, it is the state of the
    market's book after the delta, it is delivered on the market's topic,
    and the newest book [from_kafka] builds for that market shows the same
    ticker, levels and best of book as the manager's. *)
Theorem applied_delta_reaches_consumers (mgr : OrderbookManager) (k : broker)
    (m : message) (t : string) :
  manager_reachable mgr k →
  channel_of m = "orderbook_delta" →
  ticker_of m = Some t →
  (process_message mgr k m).2 = Done ∨
  (process_message mgr k m).2 = Raised SequenceGap ∨
  (process_message mgr k m).2 = Raised MissingSequence →
  ∃ b' replica,
    orderbooks (process_message mgr k m).1.1 !! t = Some b' ∧
    (process_message mgr k m).1.2 = k ++ [state_wire b'] ∧
    consumed t (process_message mgr k m).1.2
    = consumed t k ++ [(state_wire b').2] ∧
    last (from_kafka t (process_message mgr k m).1.2).1 = Some replica ∧
    same_market b' replica.
Proof.
  intros Hreach Hch Ht Hout.
  apply manager_reachable_ok in Hreach as [Hbooks _].
  destruct (process_message_cases mgr k m)
    as [[Hty _] | [(_ & [Hnone | Hnot] & _) | [(t' & _ & Hch' & _)
       | [(t' & _ & Hch' & _) | (t' & Ht' & _ & Heq)]]]].
  - by rewrite (channel_of_truthy m _ Hch) in Hty.
  - congruence.
  - exfalso. apply Hnot. rewrite Hch. unfold channels. set_solver.
  - congruence.
  - congruence.
  - assert (t' = t) as -> by congruence. rewrite Heq in *. clear Heq.
    destruct (then_check_frame
                (_process_orderbook_delta mgr k t (content_of m))
                "orderbook_delta" (m_seq m)) as [Hb Hk].
    rewrite Hb, Hk.
    destruct (_process_orderbook_delta mgr k t (content_of m))
      as [[mgr1 k1] [|e]] eqn:Hd.
    2: { exfalso. apply _process_orderbook_delta_Raised in Hd as (_ & _ & He).
         simpl in Hout.
         destruct He as [-> | [-> | [-> | ->]]];
           destruct Hout as [? | [? | ?]]; discriminate. }
    destruct (_process_orderbook_delta_cases mgr k t (content_of m))
      as [[_ Hd'] | (b & Hlook & Hd')]; rewrite Hd' in Hd; [done|].
    destruct (update b k (content_of m)) as [[b' k'] o] eqn:Hupd.
    simpl in Hd. injection Hd as <- <- ->.
    pose proof (update_keeps_registered t b k (content_of m)
                  (Hbooks t b Hlook)) as (Htick & _ & _ & _ & Hreach').
    rewrite Hupd in Htick, Hreach'. simpl in Htick, Hreach'.
    destruct (Hbooks t b Hlook) as (_ & Hs & Hp & _).
    pose proof (update_attached_Done _ _ _ _ _ Hs Hp Hupd) as Hk'.
    destruct (state_wire_replica b' Hreach') as (replica & Hrep & Hsame).
    exists b', replica. simpl.
    split; [by rewrite lookup_insert_eq|]. split; [done|].
    assert (consumed t k' = consumed t k ++ [(state_wire b').2]) as Hcons.
    { rewrite Hk'. unfold state_wire. apply consumed_snoc.
      unfold topic. by rewrite Htick. }
    split; [done|]. split; [|done].
    unfold from_kafka. rewrite Hcons, (yields_snoc _ _ _ Hrep). simpl.
    apply last_snoc.
Qed.

Lemma applied_delta_reaches_consumers_witness :
  ∃ b' replica,
    orderbooks
      (process_message after_first_delta.1.1 after_first_delta.1.2
         late_delta).1.1 !! "X" = Some b' ∧
    (process_message after_first_delta.1.1 after_first_delta.1.2
       late_delta).1.2 = after_first_delta.1.2 ++ [state_wire b'] ∧
    consumed "X"
      (process_message after_first_delta.1.1 after_first_delta.1.2
         late_delta).1.2
    = consumed "X" after_first_delta.1.2 ++ [(state_wire b').2] ∧
    last (from_kafka "X"
            (process_message after_first_delta.1.1 after_first_delta.1.2
               late_delta).1.2).1 = Some replica ∧
    same_market b' replica.
Proof.
  apply (applied_delta_reaches_consumers after_first_delta.1.1
           after_first_delta.1.2 late_delta "X" after_first_delta_reachable);
    [reflexivity | reflexivity | right; left; vm_compute; reflexivity].
Defined.

(** ** Bookkeeping of the sequence numbers *)

Lemma then_check_sequence r channel seq_no :
  match (then_check r channel seq_no).2 with
  | Done =>
      ∃ s, seq_no = Some s ∧
           sequence_numbers (then_check r channel seq_no).1.1
           = <[channel := s]> (sequence_numbers r.1.1)
  | Raised _ =>
      sequence_numbers (then_check r channel seq_no).1.1
      = sequence_numbers r.1.1
  end.
Proof.
  destruct r as [[mgr k] [|e]]; simpl; [|done].
  destruct (_check_sequence_cases mgr channel seq_no)
    as [[-> _] | [[-> _] | [[-> _] | (s & -> & _ & ->)]]]; simpl; try done.
  by exists s.
Qed.

Lemma handler_sequence mgr k m t :
  sequence_numbers
    (_process_orderbook_snapshot mgr k t (content_of m)).1.1
  = sequence_numbers mgr ∧
  sequence_numbers (_process_orderbook_delta mgr k t (content_of m)).1.1
  = sequence_numbers mgr.
Proof.
  split; [apply _process_orderbook_snapshot_sequence
         | apply _process_orderbook_delta_sequence].
Qed.

(** X18. How [process_message] keeps the sequence table: the number
    recorded for any channel other than the message's own is never
    touched; a message that raises, for whatever reason, records nothing;
    and a 'trade', 'orderbook_snapshot' or 'orderbook_delta' message with a
    ticker that returns normally leaves its own sequence number recorded
    for its channel. *)
Theorem sequence_table_bookkeeping (mgr : OrderbookManager) (k : broker)
    (m : message) :
  (∀ channel, channel ≠ channel_of m →
     sequence_numbers (process_message mgr k m).1.1 !! channel
     = sequence_numbers mgr !! channel) ∧
  ((process_message mgr k m).2 ≠ Done →
   sequence_numbers (process_message mgr k m).1.1 = sequence_numbers mgr) ∧
  ((process_message mgr k m).2 = Done →
   channel_of m ∈ channels → is_Some (ticker_of m) →
   sequence_numbers (process_message mgr k m).1.1 !! channel_of m = m_seq m).
Proof.
  assert (∀ r,
            sequence_numbers r.1.1 = sequence_numbers mgr →
            (∀ channel, channel ≠ channel_of m →
               sequence_numbers
                 (then_check r (channel_of m) (m_seq m)).1.1 !! channel
               = sequence_numbers mgr !! channel) ∧
            ((then_check r (channel_of m) (m_seq m)).2 ≠ Done →
             sequence_numbers (then_check r (channel_of m) (m_seq m)).1.1
             = sequence_numbers mgr) ∧
            ((then_check r (channel_of m) (m_seq m)).2 = Done →
             sequence_numbers
               (then_check r (channel_of m) (m_seq m)).1.1 !! channel_of m
             = m_seq m)) as Hcheck.
  { intros r Hr.
    pose proof (then_check_sequence r (channel_of m) (m_seq m)) as Hseq.
    destruct ((then_check r (channel_of m) (m_seq m)).2) as [|e].
    - destruct Hseq as (s & -> & ->). rewrite Hr.
      split; [|split]; [|done|].
      + intros channel Hne. by apply lookup_insert_ne.
      + intros _. apply lookup_insert_eq.
    - rewrite Hseq, Hr. by repeat split. }
  destruct (process_message_cases mgr k m)
    as [[_ ->] | [(_ & [Hn | Hn] & ->) | [(t & _ & Hch & ->)
       | [(t & _ & Hch & ->) | (t & _ & Hch & ->)]]]]; simpl.
  - by repeat split.
  - split; [done|]. split; [done|]. intros _ _ [? ?]. congruence.
  - split; [done|]. split; [done|]. by intros _ ?.
  - rewrite <- Hch. destruct (Hcheck (mgr, k, Done) eq_refl) as (? & ? & ?).
    repeat split; auto.
  - rewrite <- Hch.
    destruct (Hcheck _ (proj1 (handler_sequence mgr k m t))) as (? & ? & ?).
    repeat split; auto.
  - rewrite <- Hch.
    destruct (Hcheck _ (proj2 (handler_sequence mgr k m t))) as (? & ? & ?).
    repeat split; auto.
Qed.

(** ** The command counter of the websocket client *)

Lemma do_call_send c call :
  ∃ cmd ps, do_call c call = send_command c cmd ps.
Proof. destruct call; simpl; eexists _, _; reflexivity. Qed.

Lemma do_call_connected c call sent0 :
  ws_websocket c = Some sent0 →
  ∃ command,
    c_id command = ws_command_id c ∧
    (do_call c call).2 = Sent ∧
    ws_websocket (do_call c call).1 = Some (sent0 ++ [command]) ∧
    ws_command_id (do_call c call).1 = ws_command_id c + 1 ∧
    ws_token (do_call c call).1 = ws_token c.
Proof.
  intros Hws. destruct (do_call_send c call) as (cmd & ps & ->).
  unfold send_command. rewrite Hws. simpl. eexists. by repeat split.
Qed.

Lemma do_calls_connected (calls : list client_call) : ∀ c sent0,
  ws_websocket c = Some sent0 →
  ws_command_id (do_calls c calls)
  = ws_command_id c + Z.of_nat (length calls) ∧
  ∃ new,
    ws_websocket (do_calls c calls) = Some (sent0 ++ new) ∧
    c_id <$> new = seqZ (ws_command_id c) (Z.of_nat (length calls)).
Proof.
  unfold do_calls.
  induction calls as [|call calls IH]; intros c sent0 Hws; simpl.
  - split; [lia|]. exists []. by rewrite app_nil_r.
  - destruct (do_call_connected c call sent0 Hws)
      as (command & Hid & _ & Hws1 & Hcid & _).
    destruct (IH _ _ Hws1) as (Hn & new & Hws' & Hids).
    split; [lia|]. exists (command :: new).
    rewrite Hws', <- app_assoc. split; [done|].
    rewrite fmap_cons, Hids, Hid, Hcid.
    rewrite (seqZ_cons (ws_command_id c)) by lia.
    f_equal. f_equal; lia.
Qed.

(** X19. On a connected client, every command method sends exactly one
    command, stamped with the current [command_id], and then increments
    the counter: after any series of calls the commands sent carry the
    consecutive ids starting at the counter's initial value, so no id is
    used twice, and the counter has advanced by the number of calls. *)
Theorem command_ids_count_up (c : KalshiWebsocketClient)
    (calls : list client_call) (sent0 : list command) :
  ws_websocket c = Some sent0 →
  ws_command_id (do_calls c calls)
  = ws_command_id c + Z.of_nat (length calls) ∧
  ∃ new,
    ws_websocket (do_calls c calls) = Some (sent0 ++ new) ∧
    c_id <$> new = seqZ (ws_command_id c) (Z.of_nat (length calls)) ∧
    NoDup (c_id <$> new).
Proof.
  intros Hws. destruct (do_calls_connected calls c sent0 Hws)
    as (Hn & new & Hws' & Hids).
  split; [done|]. exists new. split; [done|]. split; [done|].
  rewrite Hids. apply NoDup_seqZ.
Qed.

Lemma command_ids_count_up_witness :
  ws_command_id
    (do_calls (connect (KalshiWebsocketClient_init "prod") "token") three_calls)
  = ws_command_id (connect (KalshiWebsocketClient_init "prod") "token")
    + Z.of_nat (length three_calls) ∧
  ∃ new,
    ws_websocket
      (do_calls (connect (KalshiWebsocketClient_init "prod") "token")
         three_calls) = Some ([] ++ new) ∧
    c_id <$> new
    = seqZ (ws_command_id (connect (KalshiWebsocketClient_init "prod") "token"))
        (Z.of_nat (length three_calls)) ∧
    NoDup (c_id <$> new).
Proof.
  apply (command_ids_count_up
           (connect (KalshiWebsocketClient_init "prod") "token")
           three_calls []).
  reflexivity.
Defined.

(** X20. On a client that has not connected, every command method fails
    at the send, before the counter is touched: the client is exactly what
    it was, so the failed command has not used up an id. *)
Theorem command_without_connection (c : KalshiWebsocketClient)
    (call : client_call) :
  ws_websocket c = None →
  do_call c call = (c, NotConnected).
Proof.
  intros Hws. destruct (do_call_send c call) as (cmd & ps & ->).
  unfold send_command. by rewrite Hws.
Qed.

Lemma command_without_connection_witness :
  do_call (KalshiWebsocketClient_init "demo") (CallSubscribeOrderbook ["X"])
  = (KalshiWebsocketClient_init "demo", NotConnected).
Proof.
  apply (command_without_connection (KalshiWebsocketClient_init "demo")).
  reflexivity.
Defined.

(** X21. Reconnecting does not reset the counter: for a client built by
    the constructor, connected, used, connected again (as [listen] does
    when the connection closes) and used again, the commands of the first
    connection carry the ids 1, 2, ... and those of the second go on from
    there; the token obtained at the first login is kept, and the new
    connection starts with nothing sent over it, the earlier
    subscriptions included. *)
Theorem reconnect_keeps_counting (env token token' : string)
    (calls1 calls2 : list client_call) :
  token ≠ "" →
  let c1 := do_calls (connect (KalshiWebsocketClient_init env) token) calls1 in
  let c2 := do_calls (connect c1 token') calls2 in
  c_id <$> sent_commands c1 = seqZ 1 (Z.of_nat (length calls1)) ∧
  c_id <$> sent_commands c2
  = seqZ (1 + Z.of_nat (length calls1)) (Z.of_nat (length calls2)) ∧
  ws_command_id c2
  = 1 + Z.of_nat (length calls1) + Z.of_nat (length calls2) ∧
  ws_token c2 = Some token ∧
  sent_commands (connect c1 token') = [].
Proof.
  intros Htok c1 c2.
  assert (ws_command_id (KalshiWebsocketClient_init env) = 1 ∧
          ws_token (KalshiWebsocketClient_init env) = None) as [Hid0 Htok0].
  { unfold KalshiWebsocketClient_init. by case_bool_decide. }
  destruct (do_calls_connected calls1
              (connect (KalshiWebsocketClient_init env) token) [] eq_refl)
    as (Hn1 & new1 & Hws1 & Hids1).
  destruct (do_calls_connected calls2 (connect c1 token') [] eq_refl)
    as (Hn2 & new2 & Hws2 & Hids2).
  fold c1 in Hn1, Hws1. fold c2 in Hn2, Hws2.
  simpl in Hn1, Hn2, Hids1, Hids2, Hws1, Hws2.
  rewrite Hid0 in Hn1, Hids1. rewrite Hn1 in Hn2, Hids2.
  unfold sent_commands. rewrite Hws1, Hws2. simpl.
  split; [done|]. split; [done|]. split; [lia|]. split; [|done].
  assert (∀ calls c, ws_token (do_calls c calls) = ws_token c) as Hkeep.
  { unfold do_calls. induction calls as [|call calls IH]; intros c; [done|].
    simpl. rewrite IH. destruct (do_call_send c call) as (cmd & ps & ->).
    unfold send_command. by destruct (ws_websocket c). }
  subst c2. rewrite Hkeep. simpl. subst c1. rewrite Hkeep. simpl.
  rewrite Htok0. simpl. by rewrite bool_decide_eq_false_2.
Qed.

Lemma reconnect_keeps_counting_witness :
  let c1 := do_calls (connect (KalshiWebsocketClient_init "prod") "tok")
              three_calls in
  let c2 := do_calls (connect c1 "other") three_calls in
  c_id <$> sent_commands c1 = seqZ 1 (Z.of_nat (length three_calls)) ∧
  c_id <$> sent_commands c2
  = seqZ (1 + Z.of_nat (length three_calls))
      (Z.of_nat (length three_calls)) ∧
  ws_command_id c2
  = 1 + Z.of_nat (length three_calls) + Z.of_nat (length three_calls) ∧
  ws_token c2 = Some "tok" ∧
  sent_commands (connect c1 "other") = [].
Proof.
  apply (reconnect_keeps_counting "prod" "tok" "other" three_calls three_calls).
  discriminate.
Defined.

(** ** The live orders of the order management system *)

(** X22. [send_order] registers the order exactly when the exchange is
    trading, the amount is positive and the exchange answered with a
    non-empty order id; the order is then filed under its own id.  In every
    other case it raises and the live orders are what they were; the
    "Risk checks failed" exception cannot occur, the two checks being
    constant. *)
Theorem send_order_registers_iff (oms : OrderManagementSystem)
    (trading_active : bool) (order_id : option string) (order : Order) :
  let r := send_order oms trading_active order_id order in
  (r.2 = Accepted ↔
   trading_active = true ∧ 0 < ord_amount order ∧ truthy order_id = true) ∧
  (r.2 = Accepted →
   live_orders r.1 = <[ord_id order := order]> (live_orders oms)) ∧
  (r.2 ≠ Accepted → r.1 = oms) ∧
  r.2 ≠ Rejected RiskChecksFailed.
Proof.
  unfold send_order, validate_order, run_risk_checks.
  destruct trading_active; simpl; [|by repeat split; try intros [??]].
  case_bool_decide; simpl.
  - destruct (truthy order_id); simpl; repeat split; try done.
    by intros (_ & _ & ?).
  - repeat split; try done. by intros (_ & ? & _).
Qed.

Lemma oms_filed_under_id oms :
  oms_reachable oms →
  ∀ i order, live_orders oms !! i = Some order → ord_id order = i.
Proof.
  induction 1 as [| oms ta oid order _ IH | oms success oid _ IH
                 | oms oid d _ IH]; intros i o.
  - simpl. by rewrite lookup_empty.
  - unfold send_order.
    repeat (match goal with |- context [if ?c then _ else _] => destruct c end;
            simpl; try apply IH).
    rewrite lookup_insert. case_decide; [|apply IH]. by intros [= <-].
  - unfold cancel_order. destruct (live_orders oms !! oid); [|apply IH].
    destruct success; simpl; [|apply IH].
    rewrite lookup_delete. case_decide; [done | apply IH].
  - unfold update_order. destruct (live_orders oms !! oid) as [o'|] eqn:Ho;
      [|apply IH]. simpl.
    rewrite lookup_insert. case_decide; [|apply IH].
    intros [= <-]. simpl. subst. by apply IH.
Qed.

(** X23. In every state of the order management system each live order is
    filed under its own id, so [get_live_orders] never lists two orders
    with the same id. *)
Theorem live_orders_have_distinct_ids (oms : OrderManagementSystem) :
  oms_reachable oms →
  (∀ i order, live_orders oms !! i = Some order → ord_id order = i) ∧
  NoDup (ord_id <$> get_live_orders oms).
Proof.
  intros Hreach. pose proof (oms_filed_under_id oms Hreach) as Hid.
  split; [done|]. unfold get_live_orders.
  assert (ord_id <$> (map_to_list (live_orders oms)).*2
          = (map_to_list (live_orders oms)).*1) as ->.
  { rewrite <- list_fmap_compose. apply list_fmap_ext.
    intros n [i o] Hn. simpl.
    apply list_elem_of_lookup_2, elem_of_map_to_list in Hn. by apply Hid. }
  apply NoDup_fst_map_to_list.
Qed.

Lemma oms_with_A_reachable :
  oms_reachable (send_order OrderManagementSystem_init true (Some "42")
                   order_A).1.
Proof. exact (oms_send _ true (Some "42") order_A oms_fresh). Defined.

Lemma live_orders_have_distinct_ids_witness :
  (∀ i order,
     live_orders
       (send_order OrderManagementSystem_init true (Some "42") order_A).1 !! i
     = Some order → ord_id order = i) ∧
  NoDup (ord_id <$> get_live_orders
           (send_order OrderManagementSystem_init true (Some "42") order_A).1).
Proof.
  exact (live_orders_have_distinct_ids _ oms_with_A_reachable).
Defined.

Lemma send_order_registers_lemma oms trading_active order_id order :
  (send_order oms trading_active order_id order).2 = Accepted →
  live_orders (send_order oms trading_active order_id order).1
  = <[ord_id order := order]> (live_orders oms).
Proof.
  unfold send_order.
  repeat (match goal with |- context [if ?c then _ else _] => destruct c end;
          simpl; try done).
Qed.

(** X24. Sending an order whose id is not live and then cancelling it
    successfully gives the live orders back as they were; cancelling it a
    second time raises "Order ID not found" and changes nothing. *)
Theorem send_then_cancel_restores (oms : OrderManagementSystem)
    (order_id : option string) (order : Order) :
  live_orders oms !! ord_id order = None →
  (send_order oms true order_id order).2 = Accepted →
  let sent := (send_order oms true order_id order).1 in
  cancel_order sent true (ord_id order) = (oms, Accepted) ∧
  cancel_order oms true (ord_id order) = (oms, Rejected OrderNotFound).
Proof.
  intros Hfresh Hacc.
  pose proof (send_order_registers_lemma oms true order_id order Hacc)
    as Hlive.
  split.
  - unfold cancel_order. rewrite Hlive, lookup_insert_eq.
    rewrite delete_insert_id by done. by destruct oms.
  - unfold cancel_order. by rewrite Hfresh.
Qed.

Lemma send_then_cancel_restores_witness :
  let sent := (send_order OrderManagementSystem_init true (Some "42")
                 order_A).1 in
  cancel_order sent true (ord_id order_A)
  = (OrderManagementSystem_init, Accepted) ∧
  cancel_order OrderManagementSystem_init true (ord_id order_A)
  = (OrderManagementSystem_init, Rejected OrderNotFound).
Proof.
  apply (send_then_cancel_restores OrderManagementSystem_init (Some "42")
           order_A); reflexivity.
Defined.

(** X25. [update_order] on a live order changes that order only, and of it
    only the amount, the two prices, the action and the type: its id,
    ticker and side stay, it stays filed under the same id, every other
    live order is untouched and the set of live ids is the same.  The new
    values are taken as they come: neither the positive amount asked of a
    new order nor the one-price rule of the [Order] constructor is checked
    again. *)
Theorem update_order_frame (oms : OrderManagementSystem) (order_id : string)
    (d : order_details) (order : Order) :
  live_orders oms !! order_id = Some order →
  let r := update_order oms order_id d in
  r.2 = Accepted ∧
  live_orders r.1 !! order_id = Some (apply_details order d) ∧
  ord_id (apply_details order d) = ord_id order ∧
  ord_ticker (apply_details order d) = ord_ticker order ∧
  ord_side (apply_details order d) = ord_side order ∧
  ord_amount (apply_details order d)
  = default (ord_amount order) (det_amount d) ∧
  (∀ j, j ≠ order_id → live_orders r.1 !! j = live_orders oms !! j) ∧
  dom (live_orders r.1) = dom (live_orders oms).
Proof.
  intros Hlive. unfold update_order. rewrite Hlive. simpl.
  rewrite lookup_insert_eq. repeat split.
  - intros j Hj. by apply lookup_insert_ne.
  - rewrite dom_insert_L. apply elem_of_dom_2 in Hlive.
    rewrite subseteq_union_1_L; [done | by apply singleton_subseteq_l].
Qed.

Lemma update_order_frame_witness :
  let oms := (send_order OrderManagementSystem_init true (Some "42")
                order_A).1 in
  let d := mkDetails (Some (-3)) (Some (Some 70)) None None None in
  let r := update_order oms "A" d in
  r.2 = Accepted ∧
  live_orders r.1 !! "A" = Some (apply_details order_A d) ∧
  ord_id (apply_details order_A d) = ord_id order_A ∧
  ord_ticker (apply_details order_A d) = ord_ticker order_A ∧
  ord_side (apply_details order_A d) = ord_side order_A ∧
  ord_amount (apply_details order_A d)
  = default (ord_amount order_A) (det_amount d) ∧
  (∀ j, j ≠ "A" → live_orders r.1 !! j = live_orders oms !! j) ∧
  dom (live_orders r.1) = dom (live_orders oms).
Proof.
  apply (update_order_frame
           (send_order OrderManagementSystem_init true (Some "42") order_A).1
           "A" (mkDetails (Some (-3)) (Some (Some 70)) None None None)
           order_A).
  vm_compute. reflexivity.
Defined.

(** ** The market monitor *)

Lemma counter_add_lookup active t n :
  counter_add active t n !! t = Some (default 0 (active !! t) + n).
Proof. apply lookup_insert_eq. Qed.

(** X26. [monitor_market] leaves the counter of active monitors as it
    found it: the entry of its ticker is incremented on the way in and, in
    the [finally] clause, decremented and dropped again if it is back at
    zero.  (The one exception is an entry already present with the value
    0, which the counter never holds after a monitor has finished.) *)
Theorem monitor_counter_balanced (active : gmap string Z) (t : string)
    (conditional : nat → bool) (handler : OrderBook → nat → handler_result)
    (books : list OrderBook) :
  active !! t ≠ Some 0 →
  (monitor_market active t conditional handler books).1 = active.
Proof.
  intros Hzero. unfold monitor_market, monitor_release. simpl.
  rewrite !counter_add_lookup. simpl.
  apply map_eq. intros t'.
  destruct (active !! t) as [n|] eqn:Hn; simpl.
  - rewrite bool_decide_eq_false_2.
    2: { intros [= H]. apply Hzero. f_equal. lia. }
    unfold counter_add. rewrite insert_insert_eq, lookup_insert_eq. simpl.
    rewrite lookup_insert.
    case_decide; [subst; rewrite Hn; simpl; f_equal; lia | done].
  - unfold counter_add. rewrite insert_insert_eq.
    rewrite lookup_delete. case_decide; [by subst|].
    by rewrite lookup_insert_ne.
Qed.

Lemma monitor_counter_balanced_witness :
  (monitor_market {[ "Y" := 2 ]} "X" (λ _, true) (λ _ _, Failed)
     [book_X_reader; book_X_reader]).1 = {[ "Y" := 2 ]}.
Proof.
  apply (monitor_counter_balanced {[ "Y" := 2 ]} "X"). vm_compute. discriminate.
Defined.



(** ** The sequence check comes after the payload *)

(** C1. For a message of the 'orderbook_delta' or 'orderbook_snapshot'
    channel with a ticker [t], [process_message] applies the payload first
    and checks the sequence number only if that went through.
    - Delta: with no book for [t] it raises [UnknownMarket]; if [update]
      on the book of [t] raises, that error is the outcome; in both cases
      nothing is changed and no sequence check has run.  If [update]
      returns, the book it leaves is stored under [t], the broker is the
      one it leaves, and only then does the check run, on that state.
    - Snapshot: the book built by the constructor and given its producer
      is stored under [t], and only then does the check run.
    - Hence whenever the outcome is [SequenceGap], the book under [t] is
      the one [update] left for this very delta (or the one built from
      this very snapshot), the broker has what that step sent, and the
      table of sequence numbers is what it was: the gap is reported, the
      mutation stays. *)
Theorem sequence_checked_after_payload (mgr : OrderbookManager) (k : broker)
    (m : message) (channel t : string) :
  m_type m = Some channel →
  channel = "orderbook_snapshot" ∨ channel = "orderbook_delta" →
  msg_market_ticker (default empty_payload (m_msg m)) = Some t →
  let content := default empty_payload (m_msg m) in
  let r := process_message mgr k m in
  (channel = "orderbook_delta" →
   match orderbooks mgr !! t with
   | None => r = (mgr, k, Raised UnknownMarket)
   | Some b =>
       let u := update b k content in
       match u.2 with
       | Raised e => r = (mgr, k, Raised e)
       | Done =>
           let mgr1 :=
             set_orderbooks mgr (<[t := u.1.1]> (orderbooks mgr)) in
           r = ((_check_sequence mgr1 channel (m_seq m)).1, u.1.2,
                (_check_sequence mgr1 channel (m_seq m)).2) ∧
           orderbooks r.1.1 !! t = Some u.1.1
       end
   end) ∧
  (channel = "orderbook_snapshot" →
   match OrderBook_init content true with
   | Raise e => r = (mgr, k, Raised e)
   | Ok b0 =>
       let i := initialize_producer b0 k in
       let mgr1 := set_orderbooks mgr (<[t := i.1]> (orderbooks mgr)) in
       r = ((_check_sequence mgr1 channel (m_seq m)).1, i.2,
            (_check_sequence mgr1 channel (m_seq m)).2) ∧
       orderbooks r.1.1 !! t = Some i.1
   end) ∧
  (r.2 = Raised SequenceGap →
   sequence_numbers r.1.1 = sequence_numbers mgr ∧
   ∃ b',
     orderbooks r.1.1 = <[t := b']> (orderbooks mgr) ∧
     (channel = "orderbook_delta" →
      ∃ b, orderbooks mgr !! t = Some b ∧
           update b k content = (b', r.1.2, Done)) ∧
     (channel = "orderbook_snapshot" →
      ∃ b0, OrderBook_init content true = Ok b0 ∧
            initialize_producer b0 k = (b', r.1.2))).
Proof.
  intros Hty Hch Ht content r.
  assert (r = then_check (payload_handler channel mgr k t content)
                channel (m_seq m)) as Hr
    by exact (process_message_order_book mgr k m channel t Hty Hch Ht).
  assert (channel = "orderbook_delta" →
          match orderbooks mgr !! t with
          | None => r = (mgr, k, Raised UnknownMarket)
          | Some b =>
              match (update b k content).2 with
              | Raised e => r = (mgr, k, Raised e)
              | Done =>
                  r = ((_check_sequence
                          (set_orderbooks mgr
                             (<[t := (update b k content).1.1]>
                                (orderbooks mgr))) channel (m_seq m)).1,
                       (update b k content).1.2,
                       (_check_sequence
                          (set_orderbooks mgr
                             (<[t := (update b k content).1.1]>
                                (orderbooks mgr))) channel (m_seq m)).2) ∧
                  orderbooks r.1.1 !! t = Some (update b k content).1.1
              end
          end) as Hdelta.
  { intros ->. rewrite Hr. unfold payload_handler.
    rewrite bool_decide_eq_false_2 by done.
    destruct (_process_orderbook_delta_cases mgr k t content)
      as [[-> ->] | (b & Hb & ->)]; [done|]. rewrite Hb.
    destruct (update b k content) as [[b' k'] [|e]] eqn:Hupd.
    - rewrite then_check_Done. cbn [fst snd]. split; [done|].
      rewrite _check_sequence_orderbooks. simpl. apply lookup_insert_eq.
    - cbn [fst snd then_check].
      apply update_cases in Hupd as [(e' & _ & -> & ->) | [? _]]; [|done].
      by rewrite set_orderbooks_id. }
  assert (channel = "orderbook_snapshot" →
          match OrderBook_init content true with
          | Raise e => r = (mgr, k, Raised e)
          | Ok b0 =>
              r = ((_check_sequence
                      (set_orderbooks mgr
                         (<[t := (initialize_producer b0 k).1]>
                            (orderbooks mgr))) channel (m_seq m)).1,
                   (initialize_producer b0 k).2,
                   (_check_sequence
                      (set_orderbooks mgr
                         (<[t := (initialize_producer b0 k).1]>
                            (orderbooks mgr))) channel (m_seq m)).2) ∧
              orderbooks r.1.1 !! t = Some (initialize_producer b0 k).1
          end) as Hsnap.
  { intros ->. rewrite Hr. unfold payload_handler.
    rewrite bool_decide_eq_true_2 by done.
    unfold _process_orderbook_snapshot.
    destruct (OrderBook_init content true) as [b0|e]; [|done].
    destruct (initialize_producer b0 k) as [b' k'].
    rewrite then_check_Done. cbn [fst snd]. split; [done|].
    rewrite _check_sequence_orderbooks. simpl. apply lookup_insert_eq. }
  split; [exact Hdelta|]. split; [exact Hsnap|].
  intros Hgap. destruct Hch as [-> | ->].
  - specialize (Hsnap eq_refl).
    destruct (OrderBook_init content true) as [b0|e] eqn:Hinit.
    2: { rewrite Hsnap in Hgap. simpl in Hgap. injection Hgap as ->.
         unfold OrderBook_init in Hinit.
         by destruct (msg_market_ticker content). }
    destruct Hsnap as [Hsnap _]. rewrite Hsnap in Hgap |- *.
    cbn [fst snd] in Hgap |- *.
    rewrite (_check_sequence_raised _ _ _ _ Hgap). simpl.
    split; [done|]. exists (initialize_producer b0 k).1.
    split; [done|]. split; [done|]. intros _. exists b0.
    split; [done|]. by destruct (initialize_producer b0 k).
  - specialize (Hdelta eq_refl).
    destruct (orderbooks mgr !! t) as [b|] eqn:Hb;
      [|by rewrite Hdelta in Hgap].
    destruct (update b k content) as [[b' k'] [|e]] eqn:Hupd.
    2: { cbn [snd] in Hdelta. rewrite Hdelta in Hgap. simpl in Hgap.
         injection Hgap as ->.
         pose proof (update_errors b k content SequenceGap) as He.
         rewrite Hupd in He. by destruct (He eq_refl) as [? | [? | ?]]. }
    cbn [fst snd] in Hdelta. destruct Hdelta as [Hdelta _].
    rewrite Hdelta in Hgap |- *. cbn [fst snd] in Hgap |- *.
    rewrite (_check_sequence_raised _ _ _ _ Hgap). simpl.
    split; [done|]. exists b'. split; [done|]. split; [|done].
    intros _. by exists b.
Qed.

Lemma sequence_checked_after_payload_witness :
  let r := process_message after_first_delta.1.1 after_first_delta.1.2
             late_delta in
  r.2 = Raised SequenceGap ∧
  sequence_numbers r.1.1 = sequence_numbers after_first_delta.1.1 ∧
  ∃ b',
    orderbooks r.1.1 = <[ "X" := b' ]> (orderbooks after_first_delta.1.1) ∧
    ∃ b, orderbooks after_first_delta.1.1 !! "X" = Some b ∧
         update b after_first_delta.1.2 (delta_payload "X" "yes" 40 3)
         = (b', r.1.2, Done).
Proof.
  assert ((process_message after_first_delta.1.1 after_first_delta.1.2
             late_delta).2 = Raised SequenceGap) as Hgap
    by (vm_compute; reflexivity).
  split; [exact Hgap|].
  destruct (sequence_checked_after_payload after_first_delta.1.1
              after_first_delta.1.2 late_delta "orderbook_delta" "X"
              eq_refl (or_intror eq_refl) eq_refl)
    as (_ & _ & Happlied).
  destruct (Happlied Hgap) as (Hseq & b' & Hbooks & Hdelta & _).
  split; [exact Hseq|]. exists b'. split; [exact Hbooks|].
  exact (Hdelta eq_refl).
Defined.
